(** * migrate.py: a small migration manager for PostgreSQL

    Shallow embedding of [src/db_application/migrate.py] and the
    properties of its four commands ([up], [down], [reset], [seed]).

    Conventions of the embedding.
    - A Python [str] is a [string]: a sequence of characters whose code
      points lie in 0..255; [str] comparison is by code point, which is
      [String.compare].
    - The file system is the migration directory, which exists: an
      association list from entry names to nodes, in the order
      [os.listdir] yields them.  The seed directory is its entry [seeds].
    - The database is reachable.  It is the tracking table
      [schema_migrations] together with an abstract application state on
      which the scripts act.  A connection works in a transaction block
      which [commit] publishes and [rollback] discards; a statement that
      fails aborts the block, and a script may end the block by a
      [COMMIT] of its own.  [ORDER BY version] compares as Python
      does.
    - Functions that print, raise or touch the database are computations
      in a state-and-exception monad over [world]. *)

From Stdlib Require Import List String Ascii Bool Arith Lia NArith.
From Stdlib Require Import Permutation Sorted.
Import ListNotations.

Local Open Scope string_scope.
Local Open Scope list_scope.

Set Implicit Arguments.

(** ** Python string operations used by the script *)

Module PyStr.

(** [s.startswith(p)] *)
Definition startswith (s p : string) : bool := String.prefix p s.

(** [s.endswith(p)] *)
Definition endswith (s p : string) : bool :=
  (String.length p <=? String.length s)%nat &&
  (substring (String.length s - String.length p) (String.length p) s =? p).

(** [s[n:]] *)
Fixpoint drop (n : nat) (s : string) : string :=
  match n, s with
  | O, _ => s
  | S _, EmptyString => EmptyString
  | S k, String _ s' => drop k s'
  end.

(** The first occurrence of [sep] in [s], scanning from the left: the
    text before it and the text after it ([s.partition(sep)] without its
    middle component); [None] when [sep] does not occur. *)
Fixpoint find_first (sep s : string) : option (string * string) :=
  if String.prefix sep s then Some (EmptyString, drop (String.length sep) s)
  else match s with
       | EmptyString => None
       | String c s' =>
           match find_first sep s' with
           | Some (before, after) => Some (String c before, after)
           | None => None
           end
       end.

(** [before ++ sep ++ after] is [s] cut at its leftmost occurrence of
    [sep]. *)
Definition first_occurrence (sep s before after : string) : Prop :=
  s = (before ++ sep ++ after)%string /\
  forall b a, s = (b ++ sep ++ a)%string -> String.length before <= String.length b.

(** [s.split(sep)]: cut at every non-overlapping occurrence of [sep],
    left to right.  The recursion is on a bound of the number of
    occurrences. *)
Fixpoint split_fuel (fuel : nat) (sep s : string) : list string :=
  match fuel with
  | O => [s]
  | S k =>
      match find_first sep s with
      | None => [s]
      | Some (before, after) => before :: split_fuel k sep after
      end
  end.

Definition split (s sep : string) : list string :=
  split_fuel (S (String.length s)) sep s.

(** [s.replace(old, new)]: every non-overlapping occurrence, left to
    right; the replaced text is not scanned again. *)
Fixpoint replace_fuel (fuel : nat) (old new s : string) : string :=
  match fuel with
  | O => s
  | S k =>
      match find_first old s with
      | None => s
      | Some (before, after) => before ++ new ++ replace_fuel k old new after
      end
  end.

Definition replace (s old new : string) : string :=
  replace_fuel (S (String.length s)) old new s.

(** [c.isspace()] for the code points below 256: TAB, LF, VT, FF, CR,
    the separators FS, GS, RS, US, the space, NEL and the no-break
    space. *)
Definition isspace (c : ascii) : bool :=
  let n := nat_of_ascii c in
  (((9 <=? n) && (n <=? 13)) || ((28 <=? n) && (n <=? 32))
   || (n =? 133) || (n =? 160))%nat.

Fixpoint lstrip (s : string) : string :=
  match s with
  | EmptyString => EmptyString
  | String c s' => if isspace c then lstrip s' else s
  end.

Fixpoint rstrip (s : string) : string :=
  match s with
  | EmptyString => EmptyString
  | String c s' =>
      match rstrip s' with
      | EmptyString => if isspace c then EmptyString else String c EmptyString
      | r => String c r
      end
  end.

(** [s.strip()] *)
Definition strip (s : string) : string := rstrip (lstrip s).

(** [x in l] for a list of strings *)
Definition mem (x : string) (l : list string) : bool :=
  existsb (String.eqb x) l.

(** [sorted(l)] on strings.  The order on [str] is total and
    antisymmetric, so the result does not depend on the algorithm:
    insertion into a sorted list. *)
Fixpoint insert (x : string) (l : list string) : list string :=
  match l with
  | [] => [x]
  | y :: l' => if String.leb x y then x :: l else y :: insert x l'
  end.

Fixpoint sorted (l : list string) : list string :=
  match l with
  | [] => []
  | x :: l' => insert x (sorted l')
  end.

(** [a <= b] on [str] *)
Definition le (a b : string) : Prop := String.leb a b = true.

(** [l[-1]] when [l] is not empty *)
Definition last_opt (l : list string) : option string :=
  match rev l with
  | [] => None
  | x :: _ => Some x
  end.

End PyStr.

(** ** The file system

    [MIGRATIONS_DIR] holds the migration files and the [seeds]
    subdirectory.  An entry name contains no path separator, so
    [os.path.join(dir, name)] names the entry [name] of [dir]. *)

#[warnings="-register-all"]
Inductive node : Type :=
| File (content : string)
| Dir (entries : list (string * node)).

Definition directory : Type := list (string * node).

Definition MIGRATIONS_DIR : string := "migrations".
Definition SEEDS_DIR : string := "migrations/seeds".
Definition SEEDS_NAME : string := "seeds".

Definition path_join (dir name : string) : string := dir ++ "/" ++ name.

(** [os.listdir(dir)]: the entry names, in the order of the operating
    system *)
Definition listdir {A : Type} (d : list (string * A)) : list string :=
  map fst d.

Fixpoint lookup {A : Type} (d : list (string * A)) (name : string) : option A :=
  match d with
  | [] => None
  | (n, x) :: d' => if String.eqb n name then Some x else lookup d' name
  end.

(** ** The parser: the two halves of a migration file *)

Definition DOWN_MARKER : string := "-- DOWN".
Definition UP_MARKER : string := "-- UP".

(** [parts[0].replace('-- UP', '').strip()] of [run_migration_up] *)
Definition up_sql_of (content : string) : string :=
  let parts := PyStr.split content DOWN_MARKER in
  PyStr.strip (PyStr.replace (hd EmptyString parts) UP_MARKER EmptyString).

(** [parts[1].strip()] of [run_migration_down], [None] when
    [len(parts) < 2] *)
Definition down_sql_of (content : string) : option string :=
  let parts := PyStr.split content DOWN_MARKER in
  if (List.length parts <? 2)%nat then None
  else Some (PyStr.strip (nth 1 parts EmptyString)).

(** [get_migration_files] *)
Definition is_migration_file (f : string) : bool :=
  PyStr.endswith f ".sql" && negb (PyStr.startswith f "seed_").

Definition get_migration_files (fs : directory) : list string :=
  let files := filter is_migration_file (listdir fs) in
  PyStr.sorted files.

(** [pending = [m for m in migrations if m not in applied]] *)
Definition pending_of (migrations applied : list string) : list string :=
  filter (fun m => negb (PyStr.mem m applied)) migrations.

(** [__doc__].  The string at the head of the script, with the usage,
    follows the imports: it is an expression statement and the module
    has no docstring. *)
Definition module_doc : option string := None.

(** ** The database, the exceptions and the monad *)

Section Program.

(** The application schema and data, and the database's execution of a
    script on it.  Scripts are opaque text, sent as they are: they act
    on the application state, and the tracking table is touched only by
    the statements the tool issues itself.

    [exec_sql sql d] is what the statements of [sql] make of the data
    [d], or the error of the statement that failed.  [own_commit sql d]
    tells whether the text ends the transaction block itself: [Some dc]
    when it holds a [COMMIT] of its own, [dc] being the data as its last
    [COMMIT] leaves them; [None] when it holds none.  A script that ended
    the block does not open another. *)
Variable Data : Type.
Variable SqlError : Type.
Variable exec_sql : string -> Data -> Data + SqlError.
Variable own_commit : string -> Data -> option Data.

Inductive db_error : Type :=
| SqlFailed (e : SqlError)
| UndefinedTable
| UniqueViolation (version : string)
| ValueTooLong (version : string)
| InFailedTransaction
| ConnectionClosed.

Inductive exn : Type :=
| OSError (path : string)
| DatabaseError (e : db_error).

(** The lines the script prints. *)
Inductive message : Type :=
| MsgApplied (filename : string)
| MsgErrorApplying (filename : string) (e : exn)
| MsgNoDownFound (filename : string)
| MsgRolledBack (filename : string)
| MsgErrorRollingBack (filename : string) (e : exn)
| MsgNoPending
| MsgNoRollback
| MsgSeedsDirNotFound
| MsgNoSeedFiles
| MsgSeeded (seed_file : string)
| MsgErrorSeeding (seed_file : string) (e : exn)
| MsgDoc (doc : option string)
| MsgUnknownCommand (command : string)
| MsgMigrationFailed (e : exn).

(** [schema_migrations] is absent ([None]) or holds its [version]
    column, in insertion order. *)
Record database : Type := mkDb {
  table : option (list string);
  data : Data
}.

(** The transaction of an open connection: a block with its working
    state, a block that a failed statement aborted, or no block any more
    because a script committed by itself, so that statements take effect
    at once. *)
Inductive transaction : Type :=
| InBlock (work : database)
| Failed
| Ended.

(** [committed] is the durable state of the database, [session] the
    transaction of the open connection. *)
Record world : Type := mkWorld {
  committed : database;
  session : option transaction;
  stdout : list message
}.

Inductive outcome (A : Type) : Type :=
| Return (a : A)
| Raise (e : exn).
Arguments Raise {A} e.

Definition M (A : Type) : Type := world -> outcome A * world.

Definition ret {A : Type} (a : A) : M A := fun w => (Return a, w).

Definition raise {A : Type} (e : exn) : M A := fun w => (Raise e, w).

Definition bind {A B : Type} (m : M A) (k : A -> M B) : M B :=
  fun w =>
    match m w with
    | (Return a, w') => k a w'
    | (Raise e, w') => (Raise e, w')
    end.

Definition seq {A : Type} (m : M unit) (k : M A) : M A := bind m (fun _ => k).

(** [try: body  except Exception as e: handler e] *)
Definition try_except {A : Type} (body : M A) (handler : exn -> M A) : M A :=
  fun w =>
    match body w with
    | (Return a, w') => (Return a, w')
    | (Raise e, w') => handler e w'
    end.

(** [try: body  finally: final] *)
Definition try_finally {A : Type} (body : M A) (final : M unit) : M A :=
  fun w =>
    match body w with
    | (r, w') =>
        match final w' with
        | (Return _, w'') => (r, w'')
        | (Raise e, w'') => (Raise e, w'')
        end
    end.

Fixpoint for_each {A : Type} (l : list A) (body : A -> M unit) : M unit :=
  match l with
  | [] => ret tt
  | x :: l' => seq (body x) (for_each l' body)
  end.

Definition print (m : message) : M unit :=
  fun w => (Return tt, mkWorld (committed w) (session w) (stdout w ++ [m])).

(** [open(path).read()] in [dir] *)
Definition read_file {A : Type} (dirname : string) (d : list (string * A))
    (content_of : A -> option string) (name : string) : M string :=
  match lookup d name with
  | Some x =>
      match content_of x with
      | Some content => ret content
      | None => raise (OSError (path_join dirname name))
      end
  | None => raise (OSError (path_join dirname name))
  end.

Definition file_content (n : node) : option string :=
  match n with File c => Some c | Dir _ => None end.

(** *** The connection *)

Definition get_connection : M unit :=
  fun w =>
    (Return tt, mkWorld (committed w) (Some (InBlock (committed w))) (stdout w)).

(** A statement of the tool on the connection.  In a block it acts on
    the working state and aborts the block when it fails; in an aborted
    block it is refused; with no block it takes effect at once. *)
Definition with_session {A : Type}
    (f : database -> (A * database) + db_error) : M A :=
  fun w =>
    match session w with
    | None => (Raise (DatabaseError ConnectionClosed), w)
    | Some Failed => (Raise (DatabaseError InFailedTransaction), w)
    | Some (InBlock d) =>
        match f d with
        | inl (a, d') =>
            (Return a, mkWorld (committed w) (Some (InBlock d')) (stdout w))
        | inr e =>
            (Raise (DatabaseError e), mkWorld (committed w) (Some Failed) (stdout w))
        end
    | Some Ended =>
        match f (committed w) with
        | inl (a, d') => (Return a, mkWorld d' (Some Ended) (stdout w))
        | inr e => (Raise (DatabaseError e), w)
        end
    end.

(** [cur.execute(sql)] on a script.  A script with a [COMMIT] of its own
    makes durable what the block held and what it did up to there, and
    what follows its last [COMMIT] when it runs to its end. *)
Definition execute (sql : string) : M unit :=
  fun w =>
    match session w with
    | None => (Raise (DatabaseError ConnectionClosed), w)
    | Some Failed => (Raise (DatabaseError InFailedTransaction), w)
    | Some (InBlock d) =>
        match exec_sql sql (data d), own_commit sql (data d) with
        | inl dat, None =>
            (Return tt,
             mkWorld (committed w) (Some (InBlock (mkDb (table d) dat))) (stdout w))
        | inl dat, Some _ =>
            (Return tt, mkWorld (mkDb (table d) dat) (Some Ended) (stdout w))
        | inr e, None =>
            (Raise (DatabaseError (SqlFailed e)),
             mkWorld (committed w) (Some Failed) (stdout w))
        | inr e, Some dc =>
            (Raise (DatabaseError (SqlFailed e)),
             mkWorld (mkDb (table d) dc) (Some Ended) (stdout w))
        end
    | Some Ended =>
        match exec_sql sql (data (committed w)),
              own_commit sql (data (committed w)) with
        | inl dat, _ =>
            (Return tt,
             mkWorld (mkDb (table (committed w)) dat) (Some Ended) (stdout w))
        | inr e, None => (Raise (DatabaseError (SqlFailed e)), w)
        | inr e, Some dc =>
            (Raise (DatabaseError (SqlFailed e)),
             mkWorld (mkDb (table (committed w)) dc) (Some Ended) (stdout w))
        end
    end.

(** [CREATE TABLE IF NOT EXISTS schema_migrations (...)] *)
Definition execute_create_table : M unit :=
  with_session (fun d =>
    match table d with
    | None => inl (tt, mkDb (Some []) (data d))
    | Some _ => inl (tt, d)
    end).

(** [SELECT version FROM schema_migrations ORDER BY version], fetched *)
Definition execute_select_versions : M (list string) :=
  with_session (fun d =>
    match table d with
    | None => inr UndefinedTable
    | Some rows => inl (PyStr.sorted rows, d)
    end).

(** [INSERT INTO schema_migrations (version) VALUES (%s)]; the column
    is [VARCHAR(255) UNIQUE NOT NULL]. *)
Definition insert_row (version : string) (t : option (list string))
  : list string + db_error :=
  match t with
  | None => inr UndefinedTable
  | Some rows =>
      if (255 <? String.length version)%nat then inr (ValueTooLong version)
      else if PyStr.mem version rows then inr (UniqueViolation version)
      else inl (rows ++ [version])
  end.

Definition execute_insert (version : string) : M unit :=
  with_session (fun d =>
    match insert_row version (table d) with
    | inl rows => inl (tt, mkDb (Some rows) (data d))
    | inr e => inr e
    end).

(** [DELETE FROM schema_migrations WHERE version = %s] *)
Definition delete_row (version : string) (rows : list string) : list string :=
  filter (fun v => negb (String.eqb v version)) rows.

Definition execute_delete (version : string) : M unit :=
  with_session (fun d =>
    match table d with
    | None => inr UndefinedTable
    | Some rows => inl (tt, mkDb (Some (delete_row version rows)) (data d))
    end).

(** [conn.commit()]: the block is published; an aborted block is
    rolled back; the next statement opens a new block. *)
Definition commit : M unit :=
  fun w =>
    match session w with
    | None => (Raise (DatabaseError ConnectionClosed), w)
    | Some (InBlock d) => (Return tt, mkWorld d (Some (InBlock d)) (stdout w))
    | Some _ =>
        (Return tt, mkWorld (committed w) (Some (InBlock (committed w))) (stdout w))
    end.

(** [conn.rollback()] *)
Definition rollback : M unit :=
  fun w =>
    match session w with
    | None => (Raise (DatabaseError ConnectionClosed), w)
    | Some _ =>
        (Return tt, mkWorld (committed w) (Some (InBlock (committed w))) (stdout w))
    end.

Definition cursor_close : M unit := ret tt.

Definition connection_close : M unit :=
  fun w => (Return tt, mkWorld (committed w) None (stdout w)).

Notation "x <- m ;; k" := (bind m (fun x => k))
  (at level 61, m at next level, right associativity).
Notation "m ;; k" := (seq m k) (at level 61, right associativity).

(** *** The script's functions *)

Variable fs : directory.

Definition create_migrations_table : M unit :=
  get_connection ;;
  execute_create_table ;;
  commit ;;
  cursor_close ;;
  connection_close.

Definition get_applied_migrations : M (list string) :=
  get_connection ;;
  applied <- execute_select_versions ;;
  cursor_close ;;
  connection_close ;;
  ret applied.

Definition run_migration_up (filename : string) : M unit :=
  content <- read_file MIGRATIONS_DIR fs file_content filename ;;
  let up_sql := up_sql_of content in
  get_connection ;;
  try_finally
    (try_except
       (execute up_sql ;;
        execute_insert filename ;;
        commit ;;
        print (MsgApplied filename))
       (fun e =>
          rollback ;;
          print (MsgErrorApplying filename e) ;;
          raise e))
    (cursor_close ;; connection_close).

Definition run_migration_down (filename : string) : M unit :=
  content <- read_file MIGRATIONS_DIR fs file_content filename ;;
  match down_sql_of content with
  | None => print (MsgNoDownFound filename)
  | Some down_sql =>
      get_connection ;;
      try_finally
        (try_except
           (execute down_sql ;;
            execute_delete filename ;;
            commit ;;
            print (MsgRolledBack filename))
           (fun e =>
              rollback ;;
              print (MsgErrorRollingBack filename e) ;;
              raise e))
        (cursor_close ;; connection_close)
  end.

Definition migrate_up : M unit :=
  create_migrations_table ;;
  applied <- get_applied_migrations ;;
  let migrations := get_migration_files fs in
  let pending := pending_of migrations applied in
  match pending with
  | [] => print MsgNoPending
  | _ => for_each pending run_migration_up
  end.

Definition migrate_down : M unit :=
  create_migrations_table ;;
  applied <- get_applied_migrations ;;
  match PyStr.last_opt applied with
  | None => print MsgNoRollback
  | Some last_migration => run_migration_down last_migration
  end.

Definition migrate_reset : M unit :=
  create_migrations_table ;;
  applied <- get_applied_migrations ;;
  match applied with
  | [] => print MsgNoRollback
  | _ => for_each (rev applied) run_migration_down
  end.

Definition run_seeds : M unit :=
  match lookup fs SEEDS_NAME with
  | None => print MsgSeedsDirNotFound
  | Some (File _) => raise (OSError SEEDS_DIR)
  | Some (Dir files) =>
      let seed_files :=
        PyStr.sorted (filter (fun f => PyStr.endswith f ".sql") (listdir files)) in
      match seed_files with
      | [] => print MsgNoSeedFiles
      | _ =>
          get_connection ;;
          for_each seed_files (fun seed_file =>
            seed_sql <- read_file SEEDS_DIR files file_content seed_file ;;
            try_except
              (execute seed_sql ;;
               commit ;;
               print (MsgSeeded seed_file))
              (fun e =>
                 rollback ;;
                 print (MsgErrorSeeding seed_file e))) ;;
          cursor_close ;;
          connection_close
      end
  end.

(** The [__main__] block: the exit status of the process and the world
    it leaves.  [sys.exit(1)] is not an [Exception], so the handler does
    not see it.  [MsgDoc module_doc] is [print(__doc__)]. *)
Definition main (argv : list string) (w : world) : nat * world :=
  match argv with
  | [] | [_] => (1, snd (print (MsgDoc module_doc) w))
  | _ :: command :: _ =>
      let run (m : M unit) :=
        match m w with
        | (Return _, w') => (0, w')
        | (Raise e, w') => (1, snd (print (MsgMigrationFailed e) w'))
        end in
      if command =? "up" then run migrate_up
      else if command =? "down" then run migrate_down
      else if command =? "reset" then run migrate_reset
      else if command =? "seed" then run run_seeds
      else (1, snd ((print (MsgUnknownCommand command) ;;
                     print (MsgDoc module_doc)) w))
  end.

(** *** Reading the results

    The ledger of a database, the database once the tracking table is
    ensured, and the file a message is about. *)

Definition rows_of (d : database) : list string :=
  match table d with Some rows => rows | None => [] end.

Definition ensure_table (d : database) : database :=
  mkDb (Some (rows_of d)) (data d).

Definition ledger (w : world) : list string := rows_of (committed w).

(** The world once [create_migrations_table] has run and the
    connections are closed. *)
Definition ensured (w : world) : world :=
  mkWorld (ensure_table (committed w)) None (stdout w).

(** The two statements of [run_migration_up] and of
    [run_migration_down] as one step on the durable database: the new
    state, or the error of the statement that failed with the state it
    leaves.  The state left by a failure is the former one, unless the
    script committed by itself. *)
Definition up_unit (filename up_sql : string) (d : database)
  : database + db_error * database :=
  match exec_sql up_sql (data d) with
  | inr e =>
      inr (SqlFailed e,
           match own_commit up_sql (data d) with
           | Some dc => mkDb (table d) dc
           | None => d
           end)
  | inl dat =>
      match insert_row filename (table d) with
      | inl rows => inl (mkDb (Some rows) dat)
      | inr e =>
          inr (e,
               match own_commit up_sql (data d) with
               | Some _ => mkDb (table d) dat
               | None => d
               end)
      end
  end.

Definition down_unit (filename down_sql : string) (d : database)
  : database + db_error * database :=
  match exec_sql down_sql (data d) with
  | inr e =>
      inr (SqlFailed e,
           match own_commit down_sql (data d) with
           | Some dc => mkDb (table d) dc
           | None => d
           end)
  | inl dat =>
      match table d with
      | Some rows => inl (mkDb (Some (delete_row filename rows)) dat)
      | None =>
          inr (UndefinedTable,
               match own_commit down_sql (data d) with
               | Some _ => mkDb (table d) dat
               | None => d
               end)
      end
  end.

(** The migrations whose rollback a run reported as done. *)
Fixpoint rolled_back (msgs : list message) : list string :=
  match msgs with
  | [] => []
  | MsgRolledBack f :: ms => f :: rolled_back ms
  | _ :: ms => rolled_back ms
  end.

(** The migrations a run reported on while rolling back, whatever the
    result. *)
Fixpoint down_targets (msgs : list message) : list string :=
  match msgs with
  | [] => []
  | MsgRolledBack f :: ms => f :: down_targets ms
  | MsgNoDownFound f :: ms => f :: down_targets ms
  | MsgErrorRollingBack f _ :: ms => f :: down_targets ms
  | _ :: ms => down_targets ms
  end.

(** The application data once the down scripts of [targets] have run in
    turn, each on the data the one before it left; nothing when one of
    them has no file, no down section, or is rejected. *)
Fixpoint rollback_data (targets : list string) (d : Data) : option Data :=
  match targets with
  | [] => Some d
  | f :: rest =>
      match lookup fs f with
      | Some (File content) =>
          match down_sql_of content with
          | Some down_sql =>
              match exec_sql down_sql d with
              | inl d' => rollback_data rest d'
              | inr _ => None
              end
          | None => None
          end
      | _ => None
      end
  end.

(** The seed files a run reported on. *)
Fixpoint seed_targets (msgs : list message) : list string :=
  match msgs with
  | [] => []
  | MsgSeeded f :: ms => f :: seed_targets ms
  | MsgErrorSeeding f _ :: ms => f :: seed_targets ms
  | _ :: ms => seed_targets ms
  end.

(** One seed file as a unit of its own: its script takes effect as a
    whole, or fails and leaves the data as they were, or as its own last
    [COMMIT] left them when it holds one.  An entry that is not a file
    is not run. *)
Definition seed_unit (files : list (string * node)) (d : Data)
    (seed_file : string) : Data :=
  match lookup files seed_file with
  | Some (File seed_sql) =>
      match exec_sql seed_sql d with
      | inl d' => d'
      | inr _ =>
          match own_commit seed_sql d with
          | Some dc => dc
          | None => d
          end
      end
  | _ => d
  end.

(** The line the loop of [run_seeds] prints about one seed file; none
    for an entry that is not a file. *)
Definition seed_report (files : list (string * node)) (d : Data)
    (seed_file : string) : list message :=
  match lookup files seed_file with
  | Some (File seed_sql) =>
      match exec_sql seed_sql d with
      | inl _ => [MsgSeeded seed_file]
      | inr e => [MsgErrorSeeding seed_file (DatabaseError (SqlFailed e))]
      end
  | _ => []
  end.

Fixpoint seed_reports (files : list (string * node)) (d : Data)
    (seed_files : list string) : list message :=
  match seed_files with
  | [] => []
  | f :: l => seed_report files d f ++ seed_reports files (seed_unit files d f) l
  end.

(** The [.sql] entries of a seed directory, as [run_seeds] lists them,
    and whether each of them is a file that can be read. *)
Definition seed_files_of (files : list (string * node)) : list string :=
  PyStr.sorted (filter (fun f => PyStr.endswith f ".sql") (listdir files)).

Definition readable (files : list (string * node)) (name : string) : Prop :=
  exists content, lookup files name = Some (File content).

End Program.


Arguments Return {SqlError A} a.
Arguments Raise {SqlError A} e.
Arguments OSError {SqlError} path.
Arguments UndefinedTable {SqlError}.
Arguments UniqueViolation {SqlError} version.
Arguments ValueTooLong {SqlError} version.
Arguments ConnectionClosed {SqlError}.
Arguments InFailedTransaction {SqlError}.
Arguments Failed {Data}.
Arguments Ended {Data}.
Arguments MsgApplied {SqlError} filename.
Arguments MsgNoDownFound {SqlError} filename.
Arguments MsgRolledBack {SqlError} filename.
Arguments MsgNoPending {SqlError}.
Arguments MsgNoRollback {SqlError}.
Arguments MsgSeedsDirNotFound {SqlError}.
Arguments MsgNoSeedFiles {SqlError}.
Arguments MsgSeeded {SqlError} seed_file.
Arguments MsgDoc {SqlError} doc.
Arguments MsgUnknownCommand {SqlError} command.
Arguments mkWorld {Data SqlError} committed session stdout.
Arguments insert_row {SqlError} version t.

(** ** A small database for running the script on examples

    The application state is the list of the scripts executed so far.
    [demo_exec] rejects a script that is empty or starts with [!];
    [strict_exec] also rejects a script that was executed before, as a
    database rejects the creation of an object that exists. *)

Definition demo_exec (sql : string) (d : list string) : list string + string :=
  if (sql =? "") then inr "can't execute an empty query"
  else if PyStr.startswith sql "!" then inr "syntax error"
  else inl (d ++ [sql]).

Definition strict_exec (sql : string) (d : list string) : list string + string :=
  if (sql =? "") then inr "can't execute an empty query"
  else if PyStr.mem sql d then inr "already exists"
  else inl (d ++ [sql]).

(** No script of the examples commits by itself, except under
    [commit_own]: there a script holding [COMMIT;] leaves durable what
    precedes it.  [commit_exec] rejects a script that holds a [!]. *)
Definition no_commit (sql : string) (d : list string) : option (list string) :=
  None.

Definition commit_own (sql : string) (d : list string) : option (list string) :=
  match PyStr.find_first "COMMIT;" sql with
  | Some (before, _) => Some (d ++ [PyStr.strip before])
  | None => None
  end.

Definition commit_exec (sql : string) (d : list string) : list string + string :=
  if (sql =? "") then inr "can't execute an empty query"
  else match PyStr.find_first "!" sql with
       | Some _ => inr "syntax error"
       | None => inl (d ++ [sql])
       end.

Definition demo_world_with (rows : option (list string)) (dat : list string)
  : world (list string) string :=
  mkWorld (mkDb rows dat) None [].

Definition demo_world (rows : option (list string)) : world (list string) string :=
  demo_world_with rows [].

Definition nl : string := String (ascii_of_nat 10) EmptyString.

(** A migration file with both sections. *)
Definition script (up down : string) : string :=
  "-- UP" ++ nl ++ up ++ nl ++ "-- DOWN" ++ nl ++ down ++ nl.

Definition demo_seeds : list (string * node) :=
  [("s2.sql", File "!bad"); ("s1.sql", File "insert 1;"); ("notes.txt", File "x");
   ("s3.sql", File "insert 3;")].

(** Two reversible migrations, one without a down section, a seed
    directory and a stray file with the seed prefix. *)
Definition demo_fs : directory :=
  [("002_b.sql", File (script "create b;" "drop b;"));
   ("seeds", Dir demo_seeds);
   ("001_a.sql", File (script "create a;" "drop a;"));
   ("seed_x.sql", File "insert x;");
   ("003_c.sql", File ("create c;" ++ nl))].

(** Three reversible migrations. *)
Definition demo_fs_abc : directory :=
  [("003_c.sql", File (script "create c;" "drop c;"));
   ("001_a.sql", File (script "create a;" "drop a;"));
   ("002_b.sql", File (script "create b;" "drop b;"))].

(** The second migration is rejected by the database. *)
Definition demo_fs_bad : directory :=
  [("001_a.sql", File (script "create a;" "drop a;"));
   ("002_bad.sql", File (script "!oops" "drop b;"));
   ("003_c.sql", File (script "create c;" "drop c;"))].

(** A migration with nothing in its up section. *)
Definition demo_fs_empty : directory :=
  [("001_a.sql", File (script "" "drop a;"))].

(** A reversible script under a name with the seed prefix. *)
Definition demo_fs_seed_name : directory :=
  [("seed_x.sql", File (script "insert x;" "delete x;"))].

(** A seed directory whose second entry is a directory, which cannot
    be read as a file. *)
Definition demo_fs_seed_dir : directory :=
  [("seeds", Dir [("s1.sql", File "insert 1;"); ("s2.sql", Dir []);
                  ("s3.sql", File "insert 3;")])].

(** A seed whose script commits by itself and fails afterwards. *)
Definition demo_fs_seed_commit : directory :=
  [("seeds", Dir [("s1.sql", File "insert 1; COMMIT; !bad")])].

(** A migration whose up section commits by itself and fails
    afterwards. *)
Definition demo_fs_commit : directory :=
  [("001_a.sql", File (script "create a; COMMIT; !bad" "drop a;"))].

(** A file in which the delimiter occurs twice. *)
Definition demo_twice : string :=
  script "create a;" ("drop a;" ++ nl ++ "-- DOWN" ++ nl ++ "extra").

(** The migration directory without the entry [name]. *)
Definition remove_entry (name : string) (fs : directory) : directory :=
  filter (fun e => negb (String.eqb (fst e) name)) fs.

(** The down section in the words of the specification: the whole text
    after the first occurrence of the delimiter, trimmed; absent when the
    delimiter does not occur. *)
Definition down_body_spec (content : string) : option string :=
  match PyStr.find_first DOWN_MARKER content with
  | None => None
  | Some (_, after) => Some (PyStr.strip after)
  end.

(** The text of [s] up to the next delimiter, or all of it. *)
Definition until_marker (s : string) : string :=
  match PyStr.find_first DOWN_MARKER s with
  | None => s
  | Some (before, _) => before
  end.

(** The migrations a run reported as lacking a down section. *)
Fixpoint no_down_found {SqlError : Type} (msgs : list (message SqlError))
  : list string :=
  match msgs with
  | [] => []
  | MsgNoDownFound f :: ms => f :: no_down_found ms
  | _ :: ms => no_down_found ms
  end.

(** The list [migrate_up] would take as pending in the world [w]. *)
Definition pending_in {Data SqlError : Type} (fs : directory)
    (w : world Data SqlError) : list string :=
  pending_of (get_migration_files fs) (PyStr.sorted (ledger w)).

(** [c.isspace()] for every character of [s] *)
Fixpoint all_space (s : string) : bool :=
  match s with
  | EmptyString => true
  | String c s' => PyStr.isspace c && all_space s'
  end.

(** * Properties *)

(** ** Strings, search and sorting *)

Module PyStrFacts.
Import PyStr.

Lemma ascii_compare_lt_trans a b c :
  Ascii.compare a b = Lt -> Ascii.compare b c = Lt -> Ascii.compare a c = Lt.
Proof.
  unfold Ascii.compare. rewrite !N.compare_lt_iff. lia.
Qed.

Lemma ascii_compare_refl a : Ascii.compare a a = Eq.
Proof. unfold Ascii.compare. apply N.compare_refl. Qed.

Lemma leb_trans a : forall b c, le a b -> le b c -> le a c.
Proof.
  unfold le, String.leb.
  induction a as [|x a IH]; intros [|y b] [|z c]; simpl; try easy.
  destruct (Ascii.compare x y) eqn:Exy; try easy.
  - apply Ascii.compare_eq_iff in Exy. subst y.
    destruct (Ascii.compare x z) eqn:Exz; try easy.
    apply IH.
  - destruct (Ascii.compare y z) eqn:Eyz; try easy.
    + apply Ascii.compare_eq_iff in Eyz. subst z. now rewrite Exy.
    + now rewrite (ascii_compare_lt_trans _ _ _ Exy Eyz).
Qed.

Lemma leb_refl a : le a a.
Proof.
  unfold le, String.leb. induction a as [|x a IH]; simpl; trivial.
  now rewrite ascii_compare_refl.
Qed.

Lemma leb_false_le a b : String.leb a b = false -> le b a.
Proof.
  intros H. destruct (String.leb_total a b) as [E|E]; [congruence | exact E].
Qed.

(** *** Membership *)

Lemma mem_In x l : mem x l = true <-> In x l.
Proof.
  unfold mem. rewrite existsb_exists. split.
  - intros (y & Hy & E). apply String.eqb_eq in E. now subst.
  - intros H. exists x. split; [exact H | apply String.eqb_refl].
Qed.

Lemma mem_false x l : mem x l = false <-> ~ In x l.
Proof.
  rewrite <- mem_In. destruct (mem x l); split; congruence.
Qed.

(** *** [sorted] *)

Lemma insert_In x y l : In y (insert x l) <-> y = x \/ In y l.
Proof.
  induction l as [|z l IH]; simpl.
  - intuition.
  - destruct (String.leb x z); simpl; rewrite ?IH; intuition.
Qed.

Lemma sorted_In x l : In x (sorted l) <-> In x l.
Proof.
  induction l as [|y l IH]; simpl; [tauto|].
  rewrite insert_In, IH. intuition.
Qed.

Lemma insert_perm x l : Permutation (insert x l) (x :: l).
Proof.
  induction l as [|y l IH]; simpl; [apply Permutation_refl|].
  destruct (String.leb x y); [apply Permutation_refl|].
  apply perm_trans with (y :: x :: l); [now apply perm_skip | apply perm_swap].
Qed.

Lemma sorted_perm l : Permutation (sorted l) l.
Proof.
  induction l as [|x l IH]; simpl; [constructor|].
  apply perm_trans with (x :: sorted l); [apply insert_perm | now apply perm_skip].
Qed.

Lemma insert_StronglySorted x l :
  StronglySorted le l -> StronglySorted le (insert x l).
Proof.
  induction 1 as [|y l Hs IH Hy]; simpl.
  - constructor; constructor.
  - destruct (String.leb x y) eqn:E.
    + constructor; [now constructor|].
      constructor; [exact E|].
      rewrite Forall_forall in *. intros z Hz.
      apply leb_trans with y; [exact E | auto].
    + constructor; [exact IH|].
      rewrite Forall_forall in *. intros z Hz.
      apply insert_In in Hz. destruct Hz as [->|Hz]; [|auto].
      now apply leb_false_le.
Qed.

Lemma sorted_StronglySorted l : StronglySorted le (sorted l).
Proof.
  induction l; simpl; [constructor | now apply insert_StronglySorted].
Qed.

Lemma filter_StronglySorted (f : string -> bool) l :
  StronglySorted le l -> StronglySorted le (filter f l).
Proof.
  induction 1 as [|y l Hs IH Hy]; simpl; [constructor|].
  destruct (f y); [|exact IH].
  constructor; [exact IH|].
  rewrite Forall_forall in *. intros z Hz. apply filter_In in Hz. now apply Hy.
Qed.

Lemma sorted_nil_iff l : sorted l = [] <-> l = [].
Proof.
  split; [|now intros ->].
  intros H. destruct l as [|x l]; [reflexivity|].
  assert (In x (sorted (x :: l))) as Hx by (apply sorted_In; now left).
  rewrite H in Hx. destruct Hx.
Qed.

(** *** The last element *)

Lemma last_opt_app l x : last_opt (l ++ [x]) = Some x.
Proof. unfold last_opt. now rewrite rev_app_distr. Qed.

Lemma last_opt_Some l x : last_opt l = Some x -> exists l', l = l' ++ [x].
Proof.
  unfold last_opt. intros H. destruct (rev l) as [|y r] eqn:E; [discriminate|].
  injection H as ->. exists (rev r).
  rewrite <- (rev_involutive l), E. reflexivity.
Qed.

Lemma last_opt_None l : last_opt l = None -> l = [].
Proof.
  unfold last_opt. intros H. destruct (rev l) eqn:E; [|discriminate].
  rewrite <- (rev_involutive l), E. reflexivity.
Qed.

Lemma StronglySorted_app_last l x :
  StronglySorted le (l ++ [x]) -> forall y, In y (l ++ [x]) -> le y x.
Proof.
  induction l as [|z l IH]; simpl; intros Hs y Hy.
  - destruct Hy as [<-|[]]. apply leb_refl.
  - apply StronglySorted_inv in Hs. destruct Hs as [Hs Hz].
    destruct Hy as [<-|Hy]; [|now apply IH].
    rewrite Forall_forall in Hz. apply Hz. apply in_or_app. right. now left.
Qed.

(** The last element of a sorted list is a greatest element of the
    list that was sorted. *)
Lemma last_sorted_greatest l x :
  last_opt (sorted l) = Some x -> In x l /\ forall y, In y l -> le y x.
Proof.
  intros H. destruct (last_opt_Some _ H) as [l' E].
  pose proof (sorted_StronglySorted l) as Hs. rewrite E in Hs.
  split.
  - apply sorted_In. rewrite E. apply in_or_app. right. now left.
  - intros y Hy. apply StronglySorted_app_last with l'; [exact Hs|].
    rewrite <- E. now apply sorted_In.
Qed.

(** *** Searching and splitting *)

Lemma length_append a b :
  String.length (a ++ b) = String.length a + String.length b.
Proof. induction a; simpl; [reflexivity | now rewrite IHa]. Qed.

Lemma append_assoc a b c : ((a ++ b) ++ c = a ++ (b ++ c))%string.
Proof. induction a; simpl; [reflexivity | now rewrite IHa]. Qed.

Lemma prefix_nil s : String.prefix "" s = true.
Proof. destruct s; reflexivity. Qed.

Lemma prefix_app p : forall a, String.prefix p (p ++ a) = true.
Proof.
  induction p as [|c p IH]; intros a; simpl; [apply prefix_nil|].
  destruct (ascii_dec c c); [apply IH | congruence].
Qed.

Lemma prefix_drop p : forall s,
  String.prefix p s = true -> s = (p ++ drop (String.length p) s)%string.
Proof.
  induction p as [|c p IH]; intros s H; simpl.
  - destruct s; reflexivity.
  - destruct s as [|d s]; simpl in H; [discriminate|].
    destruct (ascii_dec c d); [|discriminate].
    subst d. f_equal. now apply IH.
Qed.

Lemma find_first_eq sep s :
  find_first sep s =
  if String.prefix sep s then Some (EmptyString, drop (String.length sep) s)
  else match s with
       | EmptyString => None
       | String c s' =>
           match find_first sep s' with
           | Some (before, after) => Some (String c before, after)
           | None => None
           end
       end.
Proof. destruct s; reflexivity. Qed.

(** A result of [find_first] is an occurrence. *)
Lemma find_first_app sep s : forall b a,
  find_first sep s = Some (b, a) -> s = (b ++ sep ++ a)%string.
Proof.
  induction s as [|c s IH]; intros b a; rewrite find_first_eq;
    destruct (String.prefix sep _) eqn:P.
  - intros [= <- <-]. now apply prefix_drop.
  - discriminate.
  - intros [= <- <-]. now apply prefix_drop.
  - destruct (find_first sep s) as [[b' a']|]; [|discriminate].
    intros [= <- <-]. simpl. f_equal. now apply IH.
Qed.

(** It is the leftmost one. *)
Lemma find_first_leftmost sep s : forall b a b' a',
  find_first sep s = Some (b, a) -> s = (b' ++ sep ++ a')%string ->
  String.length b <= String.length b'.
Proof.
  induction s as [|c s IH]; intros b a b' a'; rewrite find_first_eq;
    destruct (String.prefix sep _) eqn:P.
  - intros [= <- <-] _. simpl. lia.
  - discriminate.
  - intros [= <- <-] _. simpl. lia.
  - destruct (find_first sep s) as [[b0 a0]|] eqn:F; [|discriminate].
    intros [= <- <-] E. destruct b' as [|d b'].
    + simpl in E. rewrite E, prefix_app in P. discriminate.
    + simpl in E. injection E as -> E. simpl.
      apply le_n_S. eapply IH; [reflexivity | exact E].
Qed.

(** [None] means that there is no occurrence at all. *)
Lemma find_first_None sep s :
  find_first sep s = None <-> ~ exists b a, s = (b ++ sep ++ a)%string.
Proof.
  split.
  - induction s as [|c s IH]; rewrite find_first_eq;
      destruct (String.prefix sep _) eqn:P; try discriminate;
      intros H (b & a & E).
    + destruct b; simpl in E; [|discriminate].
      rewrite E, prefix_app in P. discriminate.
    + destruct b as [|d b]; simpl in E.
      * rewrite E, prefix_app in P. discriminate.
      * injection E as -> E. apply IH.
        -- destruct (find_first sep s) as [[? ?]|]; [discriminate | reflexivity].
        -- now exists b, a.
  - intros H. destruct (find_first sep s) as [[b a]|] eqn:F; [|reflexivity].
    exfalso. apply H. exists b, a. now apply find_first_app.
Qed.

Lemma find_first_shorter sep s b a :
  sep <> EmptyString -> find_first sep s = Some (b, a) ->
  String.length a < String.length s.
Proof.
  intros Hsep F. apply find_first_app in F. subst s.
  rewrite !length_append. destruct sep; [congruence | simpl; lia].
Qed.

Lemma split_fuel_enough sep : sep <> EmptyString ->
  forall n m s, String.length s < n -> String.length s < m ->
  split_fuel n sep s = split_fuel m sep s.
Proof.
  intros Hsep. induction n as [|n IH]; intros m s Hn Hm; [lia|].
  destruct m as [|m]; [lia|]. simpl.
  destruct (find_first sep s) as [[b a]|] eqn:F; [|reflexivity].
  pose proof (find_first_shorter _ Hsep F). f_equal. apply IH; lia.
Qed.

(** The recursion equation of [split]: the bound is never reached. *)
Lemma split_eq s sep : sep <> EmptyString ->
  split s sep =
  match find_first sep s with
  | None => [s]
  | Some (before, after) => before :: split after sep
  end.
Proof.
  intros Hsep. unfold split.
  change (split_fuel (S (String.length s)) sep s)
    with (match find_first sep s with
          | None => [s]
          | Some (before, after) =>
              before :: split_fuel (String.length s) sep after
          end).
  destruct (find_first sep s) as [[b a]|] eqn:F; [|reflexivity].
  pose proof (find_first_shorter _ Hsep F). f_equal.
  apply split_fuel_enough; [exact Hsep | lia | lia].
Qed.

End PyStrFacts.

(** ** The parser *)

Lemma marker_not_empty : DOWN_MARKER <> EmptyString.
Proof. discriminate. Qed.

Lemma down_sql_of_eq content :
  down_sql_of content =
  match PyStr.find_first DOWN_MARKER content with
  | None => None
  | Some (_, after) => Some (PyStr.strip (until_marker after))
  end.
Proof.
  unfold down_sql_of, until_marker.
  rewrite (PyStrFacts.split_eq content marker_not_empty).
  destruct (PyStr.find_first DOWN_MARKER content) as [[b a]|]; [|reflexivity].
  rewrite (PyStrFacts.split_eq a marker_not_empty).
  destruct (PyStr.find_first DOWN_MARKER a) as [[m r]|]; reflexivity.
Qed.

Lemma up_sql_of_eq content :
  up_sql_of content =
  PyStr.strip (PyStr.replace (until_marker content) UP_MARKER EmptyString).
Proof.
  unfold up_sql_of, until_marker.
  rewrite (PyStrFacts.split_eq content marker_not_empty).
  destruct (PyStr.find_first DOWN_MARKER content) as [[b a]|]; reflexivity.
Qed.

Lemma append_inj_length a : forall b x y,
  (a ++ x = b ++ y)%string -> String.length a = String.length b ->
  a = b /\ x = y.
Proof.
  induction a as [|c a IH]; intros [|d b] x y; simpl; try discriminate.
  - now split.
  - intros [= -> E] [= L]. destruct (IH _ _ _ E L) as [-> ->]. now split.
Qed.

Lemma find_first_iff sep s before after :
  PyStr.find_first sep s = Some (before, after)
  <-> PyStr.first_occurrence sep s before after.
Proof.
  split.
  - intros F. split.
    + now apply PyStrFacts.find_first_app.
    + intros b a. now apply PyStrFacts.find_first_leftmost with (a := after).
  - intros [E L].
    destruct (PyStr.find_first sep s) as [[b0 a0]|] eqn:F.
    + pose proof (PyStrFacts.find_first_app _ _ F) as E0.
      pose proof (PyStrFacts.find_first_leftmost _ _ _ F E) as L0.
      pose proof (L _ _ E0) as L1.
      rewrite E in E0.
      destruct (append_inj_length _ _ _ _ E0) as [-> E1]; [lia|].
      destruct (append_inj_length _ _ _ _ E1) as [_ ->]; reflexivity.
    + apply PyStrFacts.find_first_None in F. exfalso. apply F. now exists before, after.
Qed.

(** C4.  The down section is absent exactly when the delimiter does not
    occur.  Otherwise it is the text between the first occurrence of the
    delimiter and the next occurrence after it, trimmed; it runs to the
    end of the file only when there is no next occurrence.  What follows
    a second delimiter is not part of it. *)
Theorem down_section_stops_at_next_delimiter content :
  (down_sql_of content = None
   <-> ~ exists b a, content = (b ++ DOWN_MARKER ++ a)%string) /\
  (forall before after,
     PyStr.first_occurrence DOWN_MARKER content before after ->
     (~ (exists m r, after = (m ++ DOWN_MARKER ++ r)%string) ->
      down_sql_of content = Some (PyStr.strip after)) /\
     (forall m r,
        PyStr.first_occurrence DOWN_MARKER after m r ->
        down_sql_of content = Some (PyStr.strip m))).
Proof.
  split.
  - rewrite <- PyStrFacts.find_first_None, down_sql_of_eq.
    destruct (PyStr.find_first DOWN_MARKER content) as [[b a]|];
      split; congruence.
  - intros before after Hf. apply find_first_iff in Hf.
    rewrite down_sql_of_eq, Hf. unfold until_marker. split.
    + intros Hn. apply PyStrFacts.find_first_None in Hn. now rewrite Hn.
    + intros m r Hm. apply find_first_iff in Hm. now rewrite Hm.
Qed.

(** ** The monad and the connection *)

Section Semantics.

Variables (Data SqlError : Type).
Variable exec_sql : string -> Data -> Data + SqlError.
Variable own_commit : string -> Data -> option Data.

Abbreviation World := (world Data SqlError).
Abbreviation Body := (string -> M Data SqlError unit).

Lemma for_each_app (body : Body) l1 : forall l2 (w : World),
  for_each (l1 ++ l2) body w =
  match for_each l1 body w with
  | (Return _, w') => for_each l2 body w'
  | (Raise e, w') => (Raise e, w')
  end.
Proof.
  induction l1 as [|x l1 IH]; intros l2 w; simpl; [reflexivity|].
  unfold seq, bind. destruct (body x w) as [[[]|e] w1]; [|reflexivity].
  apply IH.
Qed.

(** A loop that raises did so in one iteration, after the iterations
    before it returned, and ran none after it. *)
Lemma for_each_raise (body : Body) l : forall (w w' : World) e,
  for_each l body w = (Raise e, w') ->
  exists done x rest w_mid,
    l = done ++ x :: rest /\
    for_each done body w = (Return tt, w_mid) /\
    body x w_mid = (Raise e, w').
Proof.
  induction l as [|x l IH]; intros w w' e; simpl; [discriminate|].
  unfold seq, bind. destruct (body x w) as [[[]|e1] w1] eqn:B.
  - intros H. destruct (IH _ _ _ H) as (done & y & rest & wm & -> & Hd & Hy).
    exists (x :: done), y, rest, wm. repeat split; [|exact Hy].
    simpl. unfold seq, bind. now rewrite B.
  - intros [= -> ->]. exists [], x, l, w. repeat split. exact B.
Qed.

(** The other way round: the first iteration that raises ends the loop,
    with its exception and the world it left. *)
Lemma for_each_stop (body : Body) done x rest (w w_mid w' : World) e :
  for_each done body w = (Return tt, w_mid) ->
  body x w_mid = (Raise e, w') ->
  for_each (done ++ x :: rest) body w = (Raise e, w').
Proof.
  intros Hd Hx. rewrite for_each_app, Hd. simpl. unfold seq, bind.
  now rewrite Hx.
Qed.

(** A loop that returns ran every iteration to its end. *)
Lemma for_each_return (body : Body) l : forall (w w' : World),
  for_each l body w = (Return tt, w') ->
  forall x, In x l -> exists w1 w2, body x w1 = (Return tt, w2).
Proof.
  induction l as [|y l IH]; intros w w'; simpl; [intros _ x []|].
  unfold seq, bind. destruct (body y w) as [[[]|e1] w1] eqn:B; [|discriminate].
  intros H x [<-|Hx]; [now exists w, w1 | eauto].
Qed.

Lemma ensure_table_rows (d : database Data) : rows_of (ensure_table d) = rows_of d.
Proof. reflexivity. Qed.

Lemma ensure_table_Some (d : database Data) rows :
  table d = Some rows -> ensure_table d = d.
Proof. destruct d as [t dat]; simpl. intros ->. reflexivity. Qed.

Lemma create_migrations_table_eq (w : World) :
  create_migrations_table w = (Return tt, ensured w).
Proof. destruct w as [[[rows|] dat] s o]; reflexivity. Qed.

Lemma get_applied_migrations_eq (w : World) rows :
  table (committed w) = Some rows ->
  get_applied_migrations w
  = (Return (PyStr.sorted rows), mkWorld (committed w) None (stdout w)).
Proof.
  destruct w as [[t dat] s o]; simpl. intros ->. reflexivity.
Qed.

Lemma get_applied_ensured (w : World) :
  get_applied_migrations (ensured w)
  = (Return (PyStr.sorted (ledger w)), ensured w).
Proof. apply (get_applied_migrations_eq (ensured w)). reflexivity. Qed.

(** *** The functions in closed form *)

Lemma run_migration_up_eq fs filename (w : World) :
  run_migration_up exec_sql own_commit fs filename w =
  match lookup fs filename with
  | Some (File content) =>
      match up_unit exec_sql own_commit filename (up_sql_of content) (committed w) with
      | inl d' => (Return tt, mkWorld d' None (stdout w ++ [MsgApplied filename]))
      | inr (e, d') =>
          (Raise (DatabaseError e),
           mkWorld d' None
             (stdout w ++ [MsgErrorApplying filename (DatabaseError e)]))
      end
  | _ => (Raise (OSError (path_join MIGRATIONS_DIR filename)), w)
  end.
Proof.
  unfold run_migration_up, read_file, bind, seq.
  destruct (lookup fs filename) as [[content|files]|]; try reflexivity.
  unfold up_unit, try_finally, try_except, bind, seq, execute, execute_insert,
    with_session, get_connection, commit, rollback, print, raise; simpl.
  destruct (exec_sql (up_sql_of content) (data (committed w))) as [dat|e],
    (own_commit (up_sql_of content) (data (committed w))) as [dc|];
    simpl; try reflexivity;
    destruct (insert_row filename (table (committed w))); reflexivity.
Qed.

Lemma run_migration_down_eq fs filename (w : World) :
  run_migration_down exec_sql own_commit fs filename w =
  match lookup fs filename with
  | Some (File content) =>
      match down_sql_of content with
      | None =>
          (Return tt,
           mkWorld (committed w) (session w) (stdout w ++ [MsgNoDownFound filename]))
      | Some down_sql =>
          match down_unit exec_sql own_commit filename down_sql (committed w) with
          | inl d' =>
              (Return tt, mkWorld d' None (stdout w ++ [MsgRolledBack filename]))
          | inr (e, d') =>
              (Raise (DatabaseError e),
               mkWorld d' None
                 (stdout w ++ [MsgErrorRollingBack filename (DatabaseError e)]))
          end
      end
  | _ => (Raise (OSError (path_join MIGRATIONS_DIR filename)), w)
  end.
Proof.
  unfold run_migration_down, read_file, bind, seq.
  destruct (lookup fs filename) as [[content|files]|]; try reflexivity.
  simpl. destruct (down_sql_of content) as [down_sql|]; [|reflexivity].
  unfold down_unit, try_finally, try_except, bind, seq, execute, execute_delete,
    with_session, get_connection, commit, rollback, print, raise; simpl.
  destruct (exec_sql down_sql (data (committed w))) as [dat|e],
    (own_commit down_sql (data (committed w))) as [dc|];
    simpl; try reflexivity;
    destruct (table (committed w)); reflexivity.
Qed.

Lemma migrate_up_eq fs (w : World) :
  migrate_up exec_sql own_commit fs w =
  match pending_of (get_migration_files fs) (PyStr.sorted (ledger w)) with
  | [] => print MsgNoPending (ensured w)
  | pending => for_each pending (run_migration_up exec_sql own_commit fs) (ensured w)
  end.
Proof.
  unfold migrate_up, seq, bind.
  rewrite create_migrations_table_eq, get_applied_ensured.
  destruct (pending_of _ _); reflexivity.
Qed.

Lemma migrate_down_eq fs (w : World) :
  migrate_down exec_sql own_commit fs w =
  match PyStr.last_opt (PyStr.sorted (ledger w)) with
  | None => print MsgNoRollback (ensured w)
  | Some last_migration => run_migration_down exec_sql own_commit fs last_migration (ensured w)
  end.
Proof.
  unfold migrate_down, seq, bind.
  rewrite create_migrations_table_eq, get_applied_ensured.
  destruct (PyStr.last_opt _); reflexivity.
Qed.

Lemma migrate_reset_eq fs (w : World) :
  migrate_reset exec_sql own_commit fs w =
  match PyStr.sorted (ledger w) with
  | [] => print MsgNoRollback (ensured w)
  | applied => for_each (rev applied) (run_migration_down exec_sql own_commit fs) (ensured w)
  end.
Proof.
  unfold migrate_reset, seq, bind.
  rewrite create_migrations_table_eq, get_applied_ensured.
  destruct (PyStr.sorted _); reflexivity.
Qed.

(** *** One migration as a unit *)

Lemma insert_row_inl version t rows' :
  insert_row (SqlError := SqlError) version t = inl rows' ->
  exists rows, t = Some rows /\ rows' = rows ++ [version] /\ ~ In version rows.
Proof.
  unfold insert_row. destruct t as [rows|]; [|discriminate].
  destruct (255 <? String.length version)%nat; [discriminate|].
  destruct (PyStr.mem version rows) eqn:E; [discriminate|].
  intros [= <-]. exists rows. repeat split. now apply PyStrFacts.mem_false.
Qed.

Lemma up_unit_inl filename up_sql (d d' : database Data) :
  up_unit exec_sql own_commit filename up_sql d = inl d' ->
  exists rows dat,
    table d = Some rows /\ exec_sql up_sql (data d) = inl dat /\
    ~ In filename rows /\ d' = mkDb (Some (rows ++ [filename])) dat.
Proof.
  unfold up_unit. destruct (exec_sql up_sql (data d)) as [dat|e]; [|discriminate].
  destruct (insert_row filename (table d)) as [rows'|e] eqn:I; [|discriminate].
  intros [= <-]. destruct (insert_row_inl _ _ I) as (rows & Ht & -> & Hn).
  now exists rows, dat.
Qed.

(** A unit that fails leaves the tracking table as it was, and the whole
    database when the script does not commit by itself. *)
Lemma up_unit_inr filename up_sql (d d' : database Data) e :
  up_unit exec_sql own_commit filename up_sql d = inr (e, d') ->
  table d' = table d /\ (own_commit up_sql (data d) = None -> d' = d).
Proof.
  unfold up_unit. destruct (exec_sql up_sql (data d)) as [dat|e0].
  - destruct (insert_row filename (table d)); [discriminate|].
    intros [= _ <-]. destruct (own_commit up_sql (data d)); split;
      try reflexivity; discriminate.
  - intros [= _ <-]. destruct (own_commit up_sql (data d)); split;
      try reflexivity; discriminate.
Qed.

Lemma down_unit_inl filename down_sql (d d' : database Data) :
  down_unit exec_sql own_commit filename down_sql d = inl d' ->
  exists rows dat,
    table d = Some rows /\ exec_sql down_sql (data d) = inl dat /\
    d' = mkDb (Some (delete_row filename rows)) dat.
Proof.
  unfold down_unit. destruct (exec_sql down_sql (data d)) as [dat|e]; [|discriminate].
  destruct (table d) as [rows|]; [|discriminate].
  intros [= <-]. now exists rows, dat.
Qed.

Lemma down_unit_inr filename down_sql (d d' : database Data) e :
  down_unit exec_sql own_commit filename down_sql d = inr (e, d') ->
  table d' = table d /\ (own_commit down_sql (data d) = None -> d' = d).
Proof.
  unfold down_unit. destruct (exec_sql down_sql (data d)) as [dat|e0].
  - destruct (table d) eqn:T; [discriminate|].
    intros [= _ <-]. destruct (own_commit down_sql (data d)); split;
      try reflexivity; try assumption; discriminate.
  - intros [= _ <-]. destruct (own_commit down_sql (data d)); split;
      try reflexivity; discriminate.
Qed.

(** What one call of [run_migration_up] leaves behind. *)
Lemma run_migration_up_cases fs filename (w : World) r w' :
  run_migration_up exec_sql own_commit fs filename w = (r, w') ->
  (r = Return tt /\
   exists content rows dat,
     lookup fs filename = Some (File content) /\
     table (committed w) = Some rows /\
     exec_sql (up_sql_of content) (data (committed w)) = inl dat /\
     ~ In filename rows /\
     w' = mkWorld (mkDb (Some (rows ++ [filename])) dat) None
            (stdout w ++ [MsgApplied filename]))
  \/ (exists e, r = Raise e /\ table (committed w') = table (committed w) /\
        (w' = w \/
         exists d',
           w' = mkWorld d' None (stdout w ++ [MsgErrorApplying filename e]))).
Proof.
  rewrite run_migration_up_eq.
  destruct (lookup fs filename) as [[content|files]|].
  - destruct (up_unit _ _ _ _ _) as [d'|[e d']] eqn:U; intros [= <- <-].
    + left. split; [reflexivity|].
      destruct (up_unit_inl _ _ _ U) as (rows & dat & Ht & He & Hn & ->).
      now exists content, rows, dat.
    + right. eexists. split; [reflexivity|].
      split; [apply (up_unit_inr _ _ _ U)|]. right. now exists d'.
  - intros [= <- <-]. right. eexists. repeat split. now left.
  - intros [= <- <-]. right. eexists. repeat split. now left.
Qed.

(** *** The loop of [migrate_up] *)

Lemma up_loop_return fs l : forall (w w' : World) rows,
  table (committed w) = Some rows ->
  for_each l (run_migration_up exec_sql own_commit fs) w = (Return tt, w') ->
  table (committed w') = Some (rows ++ l) /\
  stdout w' = stdout w ++ map (@MsgApplied SqlError) l.
Proof.
  induction l as [|x l IH]; intros w w' rows Ht; simpl.
  - intros [= <-]. now rewrite !app_nil_r.
  - unfold seq, bind.
    destruct (run_migration_up exec_sql own_commit fs x w) as [[[]|e] w1] eqn:R; [|discriminate].
    intros H.
    destruct (run_migration_up_cases _ _ _ R)
      as [(_ & c & rows' & dat & _ & Ht' & _ & _ & ->)|(e & He & _)];
      [|discriminate].
    rewrite Ht in Ht'. injection Ht' as <-.
    apply IH with (rows := rows ++ [x]) in H; [|reflexivity].
    destruct H as (IH1 & IH2).
    simpl in IH2. rewrite <- !app_assoc in *. simpl in *. now split.
Qed.

Lemma pending_of_In migrations applied m :
  In m (pending_of migrations applied) <-> In m migrations /\ ~ In m applied.
Proof.
  unfold pending_of. rewrite filter_In, negb_true_iff, PyStrFacts.mem_false.
  reflexivity.
Qed.

Lemma pending_of_nil migrations applied :
  (forall m, In m migrations -> In m applied) ->
  pending_of migrations applied = [].
Proof.
  intros H. destruct (pending_of migrations applied) as [|m l] eqn:E; [reflexivity|].
  assert (In m (pending_of migrations applied)) as Hm by (rewrite E; now left).
  apply pending_of_In in Hm. destruct Hm as [Hm Hn]. now apply H in Hm.
Qed.

Lemma get_migration_files_sorted fs :
  StronglySorted PyStr.le (get_migration_files fs).
Proof. apply PyStrFacts.sorted_StronglySorted. Qed.

Lemma ensured_ensured (w : World) : ensured (ensured w) = ensured w.
Proof. reflexivity. Qed.

Lemma migrate_up_return fs (w w' : World) :
  migrate_up exec_sql own_commit fs w = (Return tt, w') ->
  let pending := pending_of (get_migration_files fs) (PyStr.sorted (ledger w)) in
  table (committed w') = Some (ledger w ++ pending) /\
  stdout w' = stdout w ++ match pending with
                          | [] => [MsgNoPending]
                          | _ => map (@MsgApplied SqlError) pending
                          end.
Proof.
  intros H pending. rewrite migrate_up_eq in H. fold pending in H.
  destruct pending as [|p ps] eqn:E.
  - injection H as <-. simpl. now rewrite app_nil_r.
  - apply (up_loop_return _ _ (ensured w) (rows := ledger w)) in H; [|reflexivity].
    exact H.
Qed.

(** C1.  [migrate_up] computes [pending] as the discoverable migration
    files that are not in the ledger, in the ascending order of
    [get_migration_files].  When the run returns, it has reported each
    pending migration as applied, in that order, the ledger is the former
    ledger followed by [pending], and running [migrate_up] again on the
    same files changes nothing in the database and prints only that no
    migration is pending. *)
Theorem up_applies_exactly_pending fs (w w' : World) :
  migrate_up exec_sql own_commit fs w = (Return tt, w') ->
  let M := get_migration_files fs in
  let L := ledger w in
  let pending := pending_of M (PyStr.sorted L) in
  (forall m, In m pending <-> In m M /\ ~ In m L) /\
  StronglySorted PyStr.le M /\
  StronglySorted PyStr.le pending /\
  stdout w' = stdout w ++ match pending with
                          | [] => [MsgNoPending]
                          | _ => map (@MsgApplied SqlError) pending
                          end /\
  ledger w' = L ++ pending /\
  migrate_up exec_sql own_commit fs w'
  = (Return tt, mkWorld (committed w') None (stdout w' ++ [MsgNoPending])).
Proof.
  intros H M L pending.
  assert (forall m, In m pending <-> In m M /\ ~ In m L) as Hp.
  { intros m. unfold pending. rewrite pending_of_In, PyStrFacts.sorted_In.
    reflexivity. }
  split; [exact Hp|].
  split; [apply get_migration_files_sorted|].
  split; [apply PyStrFacts.filter_StronglySorted, get_migration_files_sorted|].
  destruct (migrate_up_return _ _ H) as [Ht Ho]. fold L pending in Ht, Ho.
  split; [exact Ho|].
  assert (ledger w' = L ++ pending) as Hl by (unfold ledger, rows_of; now rewrite Ht).
  split; [exact Hl|].
  rewrite migrate_up_eq, Hl.
  rewrite pending_of_nil.
  - unfold ensured, print. simpl. now rewrite (ensure_table_Some _ Ht).
  - intros m Hm. apply PyStrFacts.sorted_In, in_or_app.
    destruct (in_dec string_dec m L) as [i|n]; [now left | right].
    apply Hp. now split.
Qed.

(** C2, amended.  One call of [run_migration_up] either commits the
    effect of the up script together with the ledger entry, or raises,
    reports the error and leaves the ledger as it was; the rest of the
    committed database is as it was too when the script holds no COMMIT
    of its own (a script that commits by itself keeps what it committed:
    see [up_commit_in_script_survives_failure]).  [migrate_up] stops at
    the first migration whose call raises: it raises exactly when one
    call does, with the exception and the world of the first such call,
    after the migrations before it were committed, and no later pending
    migration is run. *)
Theorem up_unit_atomic_and_fail_fast fs :
  (forall filename (w : World) r w',
     run_migration_up exec_sql own_commit fs filename w = (r, w') ->
     (r = Return tt /\
      exists content rows dat,
        lookup fs filename = Some (File content) /\
        table (committed w) = Some rows /\
        exec_sql (up_sql_of content) (data (committed w)) = inl dat /\
        committed w' = mkDb (Some (rows ++ [filename])) dat)
     \/ (exists e, r = Raise e /\
          table (committed w') = table (committed w) /\
          ((forall content,
              lookup fs filename = Some (File content) ->
              own_commit (up_sql_of content) (data (committed w)) = None) ->
           committed w' = committed w))) /\
  (forall (w : World) e w',
     migrate_up exec_sql own_commit fs w = (Raise e, w') ->
     exists done x rest w_mid,
       pending_of (get_migration_files fs) (PyStr.sorted (ledger w))
       = done ++ x :: rest /\
       for_each done (run_migration_up exec_sql own_commit fs) (ensured w)
       = (Return tt, w_mid) /\
       run_migration_up exec_sql own_commit fs x w_mid = (Raise e, w') /\
       ledger w' = ledger w ++ done) /\
  (forall (w : World) done x rest w_mid e w',
     pending_of (get_migration_files fs) (PyStr.sorted (ledger w))
     = done ++ x :: rest ->
     for_each done (run_migration_up exec_sql own_commit fs) (ensured w)
     = (Return tt, w_mid) ->
     run_migration_up exec_sql own_commit fs x w_mid = (Raise e, w') ->
     migrate_up exec_sql own_commit fs w = (Raise e, w')).
Proof.
  split; [|split].
  - intros filename w r w' H. rewrite run_migration_up_eq in H.
    destruct (lookup fs filename) as [[content|files]|] eqn:L.
    + destruct (up_unit _ _ _ _ _) as [d'|[e d']] eqn:U; injection H as <- <-.
      * left. split; [reflexivity|].
        destruct (up_unit_inl _ _ _ U) as (rows & dat & Ht & He & Hn & ->).
        now exists content, rows, dat.
      * right. eexists. split; [reflexivity|].
        destruct (up_unit_inr _ _ _ U) as [Ht Hd].
        split; [exact Ht|]. intros Hc. simpl. apply Hd. now apply Hc.
    + injection H as <- <-. right. eexists. now repeat split.
    + injection H as <- <-. right. eexists. now repeat split.
  - intros w e w' H. rewrite migrate_up_eq in H.
    destruct (pending_of _ _) as [|p ps] eqn:E; [discriminate|].
    destruct (for_each_raise _ _ _ H) as (done & x & rest & wm & El & Hd & Hx).
    exists done, x, rest, wm.
    destruct (run_migration_up_cases _ _ _ Hx)
      as [(? & _)|(e' & _ & Hc & _)]; [discriminate|].
    destruct (up_loop_return _ _ (ensured w) (rows := ledger w) eq_refl Hd)
      as (Ht & _).
    repeat split; try assumption.
    unfold ledger, rows_of. now rewrite Hc, Ht.
  - intros w done x rest wm e w' El Hd Hx. rewrite migrate_up_eq, El.
    pose proof (@for_each_stop _ done x rest _ _ _ _ Hd Hx) as H.
    destruct done; exact H.
Qed.

(** C5.  The script does not inspect the up section: it hands it to the
    database as it is.  The driver refuses an empty statement, so a
    migration whose up section is empty once the marker is removed and
    the text trimmed makes [run_migration_up] raise, with nothing
    committed (the tracking table is as it was, and so is the whole
    database, an empty statement holding no COMMIT); a [migrate_up] run
    that has it among the pending migrations raises, and the ledger it
    leaves does not contain it. *)
Theorem empty_up_body_is_rejected fs filename content :
  (forall d, exists e, exec_sql EmptyString d = inr e) ->
  lookup fs filename = Some (File content) ->
  up_sql_of content = EmptyString ->
  (forall w : World, exists e d',
     run_migration_up exec_sql own_commit fs filename w
     = (Raise e, mkWorld d' None (stdout w ++ [MsgErrorApplying filename e])) /\
     table d' = table (committed w) /\
     (own_commit EmptyString (data (committed w)) = None -> d' = committed w)) /\
  (forall (w : World) r w',
     In filename (pending_of (get_migration_files fs) (PyStr.sorted (ledger w))) ->
     migrate_up exec_sql own_commit fs w = (r, w') ->
     (exists e, r = Raise e) /\ ~ In filename (ledger w')).
Proof.
  intros Hempty Hl Hu.
  assert (forall w : World, exists e d',
     run_migration_up exec_sql own_commit fs filename w
     = (Raise e, mkWorld d' None (stdout w ++ [MsgErrorApplying filename e])) /\
     table d' = table (committed w) /\
     (own_commit EmptyString (data (committed w)) = None -> d' = committed w))
    as Hfail.
  { intros w. rewrite run_migration_up_eq, Hl, Hu.
    destruct (up_unit exec_sql own_commit filename EmptyString (committed w))
      as [d'|[e d']] eqn:U.
    - exfalso. destruct (up_unit_inl _ _ _ U) as (rows & dat & _ & He & _).
      destruct (Hempty (data (committed w))) as [e He']. congruence.
    - exists (DatabaseError e), d'. split; [reflexivity|].
      exact (up_unit_inr _ _ _ U). }
  split; [exact Hfail|].
  intros w r w' Hin H. rewrite migrate_up_eq in H.
  assert (forall l (w1 w2 : World),
            for_each l (run_migration_up exec_sql own_commit fs) w1 = (Return tt, w2) ->
            ~ In filename l) as Hnever.
  { intros l w1 w2 Hr Hf.
    destruct (for_each_return _ _ _ Hr _ Hf) as (wa & wb & Hab).
    destruct (Hfail wa) as (e & d' & He & _). congruence. }
  assert (~ In filename (ledger w)) as Hnl.
  { apply pending_of_In in Hin. rewrite PyStrFacts.sorted_In in Hin. tauto. }
  destruct (pending_of _ _) as [|p ps] eqn:E; [destruct Hin|].
  destruct r as [[]|e].
  - exfalso. exact (Hnever _ _ _ H Hin).
  - split; [now exists e|].
    destruct (for_each_raise _ _ _ H) as (done & x & rest & wm & El & Hd & Hx).
    destruct (run_migration_up_cases _ _ _ Hx)
      as [(? & _)|(e' & _ & Hc & _)]; [discriminate|].
    destruct (up_loop_return _ _ (ensured w) (rows := ledger w) eq_refl Hd)
      as (Ht & _).
    unfold ledger at 1. unfold rows_of. rewrite Hc, Ht.
    intros Hf. apply in_app_or in Hf. destruct Hf as [Hf|Hf]; [now apply Hnl|].
    now apply (Hnever _ _ _ Hd).
Qed.

(** *** Rolling back *)

Lemma delete_row_In version rows v :
  In v (delete_row version rows) <-> In v rows /\ v <> version.
Proof.
  unfold delete_row. rewrite filter_In, negb_true_iff, String.eqb_neq. reflexivity.
Qed.

Lemma delete_rows_In l : forall rows v,
  In v (fold_left (fun rows f => delete_row f rows) l rows)
  <-> In v rows /\ ~ In v l.
Proof.
  induction l as [|f l IH]; intros rows v; simpl; [tauto|].
  rewrite IH, delete_row_In. intuition congruence.
Qed.

(** What one call of [run_migration_down] leaves behind: the rollback
    committed, the missing down section reported, or an exception. *)
Lemma run_migration_down_cases fs filename (w : World) r w' :
  run_migration_down exec_sql own_commit fs filename w = (r, w') ->
  (r = Return tt /\
   ledger w' = delete_row filename (ledger w) /\
   stdout w' = stdout w ++ [MsgRolledBack filename] /\
   exists content down_sql dat,
     lookup fs filename = Some (File content) /\
     down_sql_of content = Some down_sql /\
     exec_sql down_sql (data (committed w)) = inl dat /\
     data (committed w') = dat)
  \/ (r = Return tt /\
      w' = mkWorld (committed w) (session w) (stdout w ++ [MsgNoDownFound filename]) /\
      exists content,
        lookup fs filename = Some (File content) /\ down_sql_of content = None)
  \/ (exists e, r = Raise e /\ table (committed w') = table (committed w) /\
        (w' = w \/
         exists d',
           w' = mkWorld d' None
                  (stdout w ++ [MsgErrorRollingBack filename e]))).
Proof.
  rewrite run_migration_down_eq.
  destruct (lookup fs filename) as [[content|files]|].
  - destruct (down_sql_of content) as [down_sql|] eqn:Ed.
    + destruct (down_unit _ _ _ _ _) as [d'|[e d']] eqn:U; intros [= <- <-].
      * left. destruct (down_unit_inl _ _ _ U) as (rows & dat & Ht & He & ->).
        unfold ledger, rows_of. simpl. rewrite Ht.
        repeat split. now exists content, down_sql, dat.
      * right. right. eexists. split; [reflexivity|].
        split; [apply (down_unit_inr _ _ _ U)|]. right. now exists d'.
    + intros [= <- <-]. right. left. repeat split. now exists content.
  - intros [= <- <-]. right. right. eexists. repeat split. now left.
  - intros [= <- <-]. right. right. eexists. repeat split. now left.
Qed.

Lemma down_loop fs l : forall (w : World) r w',
  for_each l (run_migration_down exec_sql own_commit fs) w = (r, w') ->
  exists msgs,
    stdout w' = stdout w ++ msgs /\
    (exists rest, l = down_targets msgs ++ rest /\ (r = Return tt -> rest = [])) /\
    ledger w' = fold_left (fun rows f => delete_row f rows) (rolled_back msgs) (ledger w).
Proof.
  induction l as [|x l IH]; intros w r w'; simpl.
  - intros [= <- <-]. exists []. rewrite app_nil_r. repeat split. now exists [].
  - unfold seq, bind.
    destruct (run_migration_down exec_sql own_commit fs x w) as [[[]|e] w1] eqn:R.
    + intros H. destruct (IH _ _ _ H) as (msgs & Ho & (rest & El & Hr) & Hl).
      destruct (run_migration_down_cases _ _ _ R)
        as [(_ & Hl1 & Ho1 & _)|[(_ & -> & _)|(e & He & _)]]; [| |discriminate].
      * exists (MsgRolledBack x :: msgs). rewrite Ho, Ho1, <- app_assoc. simpl.
        repeat split; [|now rewrite <- Hl1].
        exists rest. now rewrite El.
      * exists (MsgNoDownFound x :: msgs). rewrite Ho. simpl. rewrite <- app_assoc.
        repeat split; [|exact Hl].
        exists rest. now rewrite El.
    + intros [= <- <-].
      destruct (run_migration_down_cases _ _ _ R)
        as [(? & _)|[(? & _)|(e' & [= <-] & Hc & [->|[d' ->]])]];
        try discriminate.
      * exists []. rewrite app_nil_r. repeat split.
        exists (x :: l). split; [reflexivity | discriminate].
      * exists [MsgErrorRollingBack x e]. split; [reflexivity|]. split.
        -- exists l. split; [reflexivity | discriminate].
        -- unfold ledger, rows_of. simpl in Hc |- *. now rewrite Hc.
Qed.

(** C3.  With a ledger that is not empty, [migrate_down] is one call of
    [run_migration_down], on a greatest identifier of the ledger.  The
    identifier is fixed by the ledger before the migration directory is
    read, whatever files are there (it need not be one that
    [get_migration_files] lists).  When its file has a down section that
    the database accepts, the rollback happens: the script's effect is
    committed together with the removal of that identifier from the
    ledger, every other entry stays, and the rollback is reported.  In
    every run at most that one entry leaves the ledger, and it leaves it
    only in a run that returns and reports the rollback. *)
Theorem down_targets_greatest_of_ledger (w : World) :
  ledger w <> [] ->
  exists last,
    In last (ledger w) /\
    (forall v, In v (ledger w) -> PyStr.le v last) /\
    (forall v, In v (delete_row last (ledger w)) <-> In v (ledger w) /\ v <> last) /\
    forall fs,
      migrate_down exec_sql own_commit fs w
      = run_migration_down exec_sql own_commit fs last (ensured w) /\
      (forall content down_sql dat,
         lookup fs last = Some (File content) ->
         down_sql_of content = Some down_sql ->
         exec_sql down_sql (data (committed w)) = inl dat ->
         migrate_down exec_sql own_commit fs w
         = (Return tt,
            mkWorld (mkDb (Some (delete_row last (ledger w))) dat) None
              (stdout w ++ [MsgRolledBack last]))) /\
      (forall r w',
         migrate_down exec_sql own_commit fs w = (r, w') ->
         ledger w' = ledger w
         \/ (r = Return tt /\
             ledger w' = delete_row last (ledger w) /\
             stdout w' = stdout w ++ [MsgRolledBack last])).
Proof.
  intros Hne.
  destruct (PyStr.last_opt (PyStr.sorted (ledger w))) as [last|] eqn:E.
  - destruct (PyStrFacts.last_sorted_greatest _ E) as [Hin Hmax].
    exists last. split; [exact Hin|]. split; [exact Hmax|].
    split; [intros v; apply delete_row_In|].
    intros fs. split; [now rewrite migrate_down_eq, E|]. split.
    + intros content down_sql dat Hl Hd He.
      rewrite migrate_down_eq, E, run_migration_down_eq, Hl, Hd.
      unfold down_unit, ensured, ensure_table, ledger, rows_of. simpl.
      rewrite He. now destruct (table (committed w)).
    + intros r w'. rewrite migrate_down_eq, E. intros R.
      destruct (run_migration_down_cases _ _ _ R)
        as [(-> & Hl & Ho & _)|[(_ & -> & _)|(e & _ & Hc & _)]].
      * right. now repeat split.
      * now left.
      * left. unfold ledger, rows_of. now rewrite Hc.
  - apply PyStrFacts.last_opt_None in E.
    apply (proj1 (PyStrFacts.sorted_nil_iff _)) in E. contradiction.
Qed.

Lemma find_first_None_down_sql content :
  (~ exists b a, content = (b ++ DOWN_MARKER ++ a)%string) <->
  down_sql_of content = None.
Proof.
  rewrite <- PyStrFacts.find_first_None, down_sql_of_eq.
  destruct (PyStr.find_first DOWN_MARKER content) as [[b a]|];
    split; congruence.
Qed.

(** C6.  When the file of a migration does not contain the delimiter,
    [run_migration_down] prints that no down section was found and
    returns: nothing is executed, nothing is committed.  When that
    migration is the one [migrate_down] targets, the command returns, the
    process exits with status 0, and the ledger still has the entry. *)
Theorem down_without_delimiter_keeps_entry fs filename content :
  lookup fs filename = Some (File content) ->
  (~ exists b a, content = (b ++ DOWN_MARKER ++ a)%string) ->
  (forall w : World,
     run_migration_down exec_sql own_commit fs filename w
     = (Return tt,
        mkWorld (committed w) (session w) (stdout w ++ [MsgNoDownFound filename]))) /\
  (forall w : World,
     PyStr.last_opt (PyStr.sorted (ledger w)) = Some filename ->
     exists w',
       migrate_down exec_sql own_commit fs w = (Return tt, w') /\
       stdout w' = stdout w ++ [MsgNoDownFound filename] /\
       ledger w' = ledger w /\ In filename (ledger w') /\
       data (committed w') = data (committed w) /\
       forall prog rest, main exec_sql own_commit fs (prog :: "down" :: rest) w = (0, w')).
Proof.
  intros Hl Hn. apply find_first_None_down_sql in Hn.
  assert (forall w : World,
     run_migration_down exec_sql own_commit fs filename w
     = (Return tt,
        mkWorld (committed w) (session w) (stdout w ++ [MsgNoDownFound filename])))
    as Hrun.
  { intros w. now rewrite run_migration_down_eq, Hl, Hn. }
  split; [exact Hrun|].
  intros w E. eexists. rewrite migrate_down_eq, E, Hrun.
  split; [reflexivity|]. simpl. repeat split.
  - now apply PyStrFacts.last_sorted_greatest.
  - intros prog rest. unfold main. simpl.
    now rewrite migrate_down_eq, E, Hrun.
Qed.

(** The loop of [migrate_reset] when every down script is there and is
    accepted. *)
Lemma down_loop_data fs l : forall rows (d : Data) o dat,
  rollback_data exec_sql fs l d = Some dat ->
  for_each l (run_migration_down exec_sql own_commit fs)
    (mkWorld (mkDb (Some rows) d) None o)
  = (Return tt,
     mkWorld (mkDb (Some (fold_left (fun rows f => delete_row f rows) l rows)) dat)
       None (o ++ map (@MsgRolledBack SqlError) l)).
Proof.
  induction l as [|x l IH]; intros rows d o dat; simpl.
  - intros [= <-]. now rewrite app_nil_r.
  - destruct (lookup fs x) as [[content|files]|] eqn:L; try discriminate.
    destruct (down_sql_of content) as [down_sql|] eqn:Dn; [|discriminate].
    destruct (exec_sql down_sql d) as [d1|e] eqn:Ex; [|discriminate].
    intros H. unfold seq, bind.
    rewrite run_migration_down_eq, L, Dn. unfold down_unit. simpl. rewrite Ex.
    fold (seq (A := unit) (Data := Data) (SqlError := SqlError)).
    rewrite (IH _ _ _ _ H). now rewrite <- app_assoc.
Qed.

Lemma delete_rows_all l rows :
  (forall v, In v rows -> In v l) ->
  fold_left (fun rows f => delete_row f rows) l rows = [].
Proof.
  intros H.
  destruct (fold_left (fun rows f => delete_row f rows) l rows) as [|v r] eqn:E;
    [reflexivity|].
  assert (In v (fold_left (fun rows f => delete_row f rows) l rows)) as Hv
    by (rewrite E; now left).
  apply delete_rows_In in Hv. destruct Hv as [Hv Hn]. now apply H in Hv.
Qed.

(** C7.  [migrate_reset] calls [run_migration_down] on the applied
    identifiers from the greatest to the least.  In every run the files
    its messages are about are, in order, a prefix of the reversed sorted
    ledger, and all of it when the command returns; the ledger it leaves
    is the former one without the identifiers reported as rolled back, so
    it is empty when every one was.  The command raises exactly when a
    call of [run_migration_down] does: then the exception and the world
    are those of the first call that raised, and the identifiers after it
    are not touched.  When every down script is there and is accepted on
    the data the one before it left, the scripts are executed in that
    order, the command returns, reports each rollback, and leaves the
    ledger empty. *)
Theorem reset_rolls_back_in_reverse fs (w : World) :
  (forall r w',
     migrate_reset exec_sql own_commit fs w = (r, w') ->
     exists msgs,
       stdout w' = stdout w ++ msgs /\
       (exists rest,
          rev (PyStr.sorted (ledger w)) = down_targets msgs ++ rest /\
          (r = Return tt -> rest = [])) /\
       ledger w'
       = fold_left (fun rows f => delete_row f rows) (rolled_back msgs) (ledger w) /\
       (rolled_back msgs = rev (PyStr.sorted (ledger w)) -> ledger w' = []) /\
       (forall e, r = Raise e ->
          exists done x rest w_mid,
            rev (PyStr.sorted (ledger w)) = done ++ x :: rest /\
            for_each done (run_migration_down exec_sql own_commit fs) (ensured w)
            = (Return tt, w_mid) /\
            run_migration_down exec_sql own_commit fs x w_mid = (Raise e, w'))) /\
  (forall done x rest w_mid e w',
     rev (PyStr.sorted (ledger w)) = done ++ x :: rest ->
     for_each done (run_migration_down exec_sql own_commit fs) (ensured w)
     = (Return tt, w_mid) ->
     run_migration_down exec_sql own_commit fs x w_mid = (Raise e, w') ->
     migrate_reset exec_sql own_commit fs w = (Raise e, w')) /\
  (forall dat,
     ledger w <> [] ->
     rollback_data exec_sql fs (rev (PyStr.sorted (ledger w))) (data (committed w))
     = Some dat ->
     migrate_reset exec_sql own_commit fs w
     = (Return tt,
        mkWorld (mkDb (Some []) dat) None
          (stdout w
           ++ map (@MsgRolledBack SqlError) (rev (PyStr.sorted (ledger w)))))).
Proof.
  split; [|split].
  - intros r w' H. set (applied := PyStr.sorted (ledger w)) in *.
    rewrite migrate_reset_eq in H. fold applied in H.
    assert (for_each (rev applied) (run_migration_down exec_sql own_commit fs) (ensured w) = (r, w')
            \/ (applied = [] /\ r = Return tt /\ w' = snd (print MsgNoRollback (ensured w))))
      as [L|(Ea & -> & ->)].
    { destruct applied as [|a l] eqn:Ea; [right | now left].
      injection H as <- <-. repeat split. }
    + destruct (down_loop _ _ _ L) as (msgs & Ho & Hp & Hl).
      exists msgs. repeat split; try assumption.
      * intros Hall. rewrite Hl, Hall. apply delete_rows_all.
        intros v Hv. apply -> in_rev. now apply PyStrFacts.sorted_In.
      * intros e ->. now apply for_each_raise.
    + exists [MsgNoRollback]. rewrite Ea. simpl.
      apply (proj1 (PyStrFacts.sorted_nil_iff _)) in Ea.
      repeat split; try assumption.
      * now exists [].
      * intros _. exact Ea.
      * discriminate.
  - intros done x rest wm e w' El Hd Hx. rewrite migrate_reset_eq.
    pose proof (@for_each_stop _ done x rest _ _ _ _ Hd Hx) as H.
    rewrite <- El in H.
    destruct (PyStr.sorted (ledger w)) as [|a l] eqn:Ea; [|exact H].
    destruct done; discriminate.
  - intros dat Hne H. rewrite migrate_reset_eq.
    destruct (PyStr.sorted (ledger w)) as [|a l] eqn:Ea.
    { apply (proj1 (PyStrFacts.sorted_nil_iff _)) in Ea. contradiction. }
    rewrite <- Ea in *. unfold ensured, ensure_table.
    rewrite (down_loop_data _ _ _ _ _ H). fold (ledger w).
    rewrite delete_rows_all; [reflexivity|].
    intros v Hv. apply -> in_rev. now apply PyStrFacts.sorted_In.
Qed.

(** C8.  When no discoverable migration was pending before
    [migrate_down], the identifier it rolled back is a discoverable
    migration file, and the [migrate_up] that follows returns, the ledger
    holds the same identifiers as before [migrate_down]: the rolled-back
    identifier, which had left the ledger, is back, and nothing else
    changed. *)
Theorem down_then_up_restores_ledger fs (w w1 w2 : World) last :
  (forall m, In m (get_migration_files fs) -> In m (ledger w)) ->
  In last (get_migration_files fs) ->
  migrate_down exec_sql own_commit fs w = (Return tt, w1) ->
  stdout w1 = stdout w ++ [MsgRolledBack last] ->
  migrate_up exec_sql own_commit fs w1 = (Return tt, w2) ->
  ledger w1 = delete_row last (ledger w) /\
  ~ In last (ledger w1) /\
  In last (ledger w2) /\
  (forall v, In v (ledger w2) <-> In v (ledger w)).
Proof.
  intros Hall HM Hd Ho Hu.
  assert (ledger w1 = delete_row last (ledger w) /\ In last (ledger w)) as [H1 Hin].
  { rewrite migrate_down_eq in Hd.
    destruct (PyStr.last_opt _) as [l|] eqn:E.
    - destruct (run_migration_down_cases _ _ _ Hd)
        as [(_ & Hl & Ho' & _)|[(_ & -> & _)|(e & ? & _)]]; [| |discriminate].
      + rewrite Ho in Ho'. apply app_inv_head in Ho'. injection Ho' as ->.
        split; [exact Hl|]. now apply PyStrFacts.last_sorted_greatest.
      + simpl in Ho. apply app_inv_head in Ho. discriminate.
    - injection Hd as <-. simpl in Ho. apply app_inv_head in Ho. discriminate. }
  assert (~ In last (ledger w1)) as Hn1.
  { rewrite H1, delete_row_In. tauto. }
  destruct (migrate_up_return _ _ Hu) as [Ht _].
  assert (ledger w2 = ledger w1 ++
            pending_of (get_migration_files fs) (PyStr.sorted (ledger w1))) as H2.
  { unfold ledger at 1. unfold rows_of. now rewrite Ht. }
  assert (forall v, In v (pending_of (get_migration_files fs)
                            (PyStr.sorted (ledger w1))) <-> v = last) as Hp.
  { intros v. rewrite pending_of_In, PyStrFacts.sorted_In, H1, delete_row_In.
    split.
    - intros [Hv Hnv]. destruct (string_dec v last) as [->|Hne]; [reflexivity|].
      exfalso. apply Hnv. split; [now apply Hall | exact Hne].
    - intros ->. split; [exact HM | tauto]. }
  repeat split; try assumption.
  - rewrite H2. apply in_or_app. right. now apply Hp.
  - rewrite H2, in_app_iff, Hp, H1, delete_row_In. intros [[Hv _]| ->]; assumption.
  - rewrite H2, in_app_iff, Hp, H1, delete_row_In. intros Hv.
    destruct (string_dec v last) as [->|Hne]; [now right | left; now split].
Qed.

(** *** Seeds *)

Lemma lookup_listdir {A : Type} (d : list (string * A)) f :
  In f (listdir d) -> exists x, lookup d f = Some x.
Proof.
  induction d as [|[n x] d IH]; simpl; [intros []|].
  intros [->|H].
  - rewrite String.eqb_refl. now exists x.
  - destruct (String.eqb n f); [now exists x | now apply IH].
Qed.

(** The world after one seed file that can be read, with the connection
    open: the transaction block that follows starts from what is
    committed. *)
Lemma seed_file_eq files f (d : database Data) o :
  readable files f ->
  bind (read_file SEEDS_DIR files file_content f)
    (fun seed_sql =>
       try_except
         (seq (execute exec_sql own_commit seed_sql)
            (seq (@commit Data SqlError) (print (MsgSeeded f))))
         (fun e => seq (@rollback Data SqlError) (print (MsgErrorSeeding f e))))
    (mkWorld d (Some (InBlock d)) o)
  = (Return tt,
     mkWorld (mkDb (table d) (seed_unit exec_sql own_commit files (data d) f))
       (Some (InBlock (mkDb (table d) (seed_unit exec_sql own_commit files (data d) f))))
       (o ++ seed_report exec_sql files (data d) f)).
Proof.
  intros [sql Hs].
  unfold seed_unit, seed_report, read_file, seq. rewrite Hs.
  unfold bind, try_except, execute, with_session, commit, rollback, print, ret.
  simpl.
  destruct (exec_sql sql (data d)) as [dat|e], (own_commit sql (data d)) as [dc|];
    simpl; try reflexivity.
  now destruct d.
Qed.

(** An entry that cannot be read as a file: [open] raises, outside the
    [try] of the loop. *)
Lemma seed_file_unreadable files f (body : string -> M Data SqlError unit) (w : World) :
  ~ readable files f ->
  bind (read_file SEEDS_DIR files file_content f) body w
  = (Raise (OSError (path_join SEEDS_DIR f)), w).
Proof.
  intros Hn. unfold bind, read_file.
  destruct (lookup files f) as [[c|l]|] eqn:L; try reflexivity.
  exfalso. apply Hn. now exists c.
Qed.

Lemma seed_loop files (body : Body) l :
  (forall f (d : database Data) o,
     readable files f ->
     body f (mkWorld d (Some (InBlock d)) o)
     = (Return tt,
        mkWorld (mkDb (table d) (seed_unit exec_sql own_commit files (data d) f))
          (Some (InBlock (mkDb (table d) (seed_unit exec_sql own_commit files (data d) f))))
          (o ++ seed_report exec_sql files (data d) f))) ->
  forall (d : database Data) o,
    (forall f, In f l -> readable files f) ->
    for_each l body (mkWorld d (Some (InBlock d)) o)
    = (Return tt,
       mkWorld
         (mkDb (table d) (fold_left (seed_unit exec_sql own_commit files) l (data d)))
         (Some (InBlock
            (mkDb (table d) (fold_left (seed_unit exec_sql own_commit files) l (data d)))))
         (o ++ seed_reports exec_sql own_commit files (data d) l)).
Proof.
  intros Hbody. induction l as [|f l IH]; intros d o Hincl; simpl.
  - rewrite app_nil_r. now destruct d.
  - unfold seq, bind. rewrite Hbody by (apply Hincl; now left).
    fold (seq (A := unit) (Data := Data) (SqlError := SqlError)).
    rewrite IH by (intros x Hx; apply Hincl; now right).
    simpl. now rewrite <- app_assoc.
Qed.

Lemma seed_targets_reports files l : forall d,
  (forall f, In f l -> readable files f) ->
  seed_targets (seed_reports exec_sql own_commit files d l) = l.
Proof.
  induction l as [|f l IH]; intros d Hr; simpl; [reflexivity|].
  destruct (Hr f (or_introl eq_refl)) as [sql Hf].
  unfold seed_report at 1. rewrite Hf.
  destruct (exec_sql sql d); simpl; rewrite IH; try reflexivity;
    intros x Hx; apply Hr; now right.
Qed.

(** [run_seeds] in closed form, when the seed directory is there: every
    entry is read and run, or the first one that cannot be read ends the
    command with the connection still open. *)
Lemma run_seeds_readable fs files (w : World) :
  lookup fs SEEDS_NAME = Some (Dir files) ->
  (forall f, In f (seed_files_of files) -> readable files f) ->
  run_seeds exec_sql own_commit fs w
  = (Return tt,
     match seed_files_of files with
     | [] => mkWorld (committed w) (session w) (stdout w ++ [MsgNoSeedFiles])
     | _ =>
         mkWorld
           (mkDb (table (committed w))
              (fold_left (seed_unit exec_sql own_commit files) (seed_files_of files)
                 (data (committed w))))
           None
           (stdout w
            ++ seed_reports exec_sql own_commit files (data (committed w))
                 (seed_files_of files))
     end).
Proof.
  intros Hs Hr. unfold run_seeds. rewrite Hs.
  fold (seed_files_of files).
  destruct (seed_files_of files) as [|s0 l0] eqn:E; [reflexivity|].
  unfold seq at 1. unfold bind at 1. unfold get_connection at 1.
  unfold seq at 1. unfold bind at 1.
  rewrite (@seed_loop files _ (s0 :: l0)).
  - reflexivity.
  - intros f d o Hf. now apply seed_file_eq.
  - exact Hr.
Qed.

Lemma run_seeds_unreadable fs files (w : World) done x rest :
  lookup fs SEEDS_NAME = Some (Dir files) ->
  seed_files_of files = done ++ x :: rest ->
  (forall f, In f done -> readable files f) ->
  ~ readable files x ->
  let d' := mkDb (table (committed w))
              (fold_left (seed_unit exec_sql own_commit files) done
                 (data (committed w))) in
  run_seeds exec_sql own_commit fs w
  = (Raise (OSError (path_join SEEDS_DIR x)),
     mkWorld d' (Some (InBlock d'))
       (stdout w ++ seed_reports exec_sql own_commit files (data (committed w)) done)).
Proof.
  intros Hs E Hr Hx d'.
  assert (forall body : Body,
            (forall f (d : database Data) o,
               readable files f ->
               body f (mkWorld d (Some (InBlock d)) o)
               = (Return tt,
                  mkWorld (mkDb (table d) (seed_unit exec_sql own_commit files (data d) f))
                    (Some (InBlock (mkDb (table d)
                                      (seed_unit exec_sql own_commit files (data d) f))))
                    (o ++ seed_report exec_sql files (data d) f))) ->
            (forall w0, body x w0 = (Raise (OSError (path_join SEEDS_DIR x)), w0)) ->
            for_each (done ++ x :: rest) body
              (mkWorld (committed w) (Some (InBlock (committed w))) (stdout w))
            = (Raise (OSError (path_join SEEDS_DIR x)),
               mkWorld d' (Some (InBlock d'))
                 (stdout w ++ seed_reports exec_sql own_commit files
                                (data (committed w)) done))) as H.
  { intros body Hb Hbx. apply for_each_stop with (2 := Hbx _).
    now apply (@seed_loop files). }
  unfold run_seeds. rewrite Hs. fold (seed_files_of files). rewrite E.
  destruct (done ++ x :: rest) as [|s0 l0] eqn:E2; [destruct done; discriminate|].
  unfold seq at 1. unfold bind at 1. unfold get_connection at 1.
  unfold seq at 1. unfold bind at 1.
  rewrite H; [reflexivity| |].
  - intros f d o Hf. now apply seed_file_eq.
  - intros w0. now apply seed_file_unreadable.
Qed.

(** C9, amended.  With the seed directory in place, [run_seeds] takes the
    [.sql] entries of it in ascending order of name.  When every one of
    them can be read, each is run as a unit of its own: a script that
    fails is reported and leaves the data as they were before it (as its
    own last COMMIT left them, when it holds one), and the files after it
    are still run; the command returns and the process exits with
    status 0.  An entry that cannot be read ends the command there: the
    files before it were run and stay committed, the files after it are
    not run, the connection is left open, and the process reports the
    failure and exits with status 1 (see [seed_run_ends_at_unreadable_entry]). *)
Theorem seeds_run_in_isolation fs files (w : World) :
  lookup fs SEEDS_NAME = Some (Dir files) ->
  StronglySorted PyStr.le (seed_files_of files) /\
  ((forall f, In f (seed_files_of files) -> readable files f) ->
   let seed_files := seed_files_of files in
   let msgs := match seed_files with
               | [] => [MsgNoSeedFiles]
               | _ => seed_reports exec_sql own_commit files (data (committed w)) seed_files
               end in
   exists w',
     run_seeds exec_sql own_commit fs w = (Return tt, w') /\
     stdout w' = stdout w ++ msgs /\
     seed_targets msgs = seed_files /\
     data (committed w')
     = fold_left (seed_unit exec_sql own_commit files) seed_files (data (committed w)) /\
     table (committed w') = table (committed w) /\
     forall prog rest, main exec_sql own_commit fs (prog :: "seed" :: rest) w = (0, w')) /\
  (forall done x rest,
     seed_files_of files = done ++ x :: rest ->
     (forall f, In f done -> readable files f) ->
     ~ readable files x ->
     exists w',
       run_seeds exec_sql own_commit fs w
       = (Raise (OSError (path_join SEEDS_DIR x)), w') /\
       stdout w'
       = stdout w ++ seed_reports exec_sql own_commit files (data (committed w)) done /\
       data (committed w')
       = fold_left (seed_unit exec_sql own_commit files) done (data (committed w)) /\
       session w' = Some (InBlock (committed w')) /\
       forall prog rest',
         main exec_sql own_commit fs (prog :: "seed" :: rest') w
         = (1, mkWorld (committed w') (session w')
                 (stdout w'
                  ++ [MsgMigrationFailed (OSError (path_join SEEDS_DIR x))]))).
Proof.
  intros Hs. split; [apply PyStrFacts.sorted_StronglySorted|]. split.
  - intros Hr seed_files msgs.
    pose proof (@run_seeds_readable fs files w Hs Hr) as R. fold seed_files in R.
    assert (forall f, In f seed_files -> readable files f) as Hr' by exact Hr.
    eexists. split; [exact R|]. subst msgs.
    destruct seed_files as [|s0 l0] eqn:E.
    + repeat split. intros prog rest. unfold main. simpl. now rewrite R.
    + repeat split.
      * now apply seed_targets_reports.
      * intros prog rest. unfold main. simpl. now rewrite R.
  - intros done x rest E Hr Hx.
    pose proof (@run_seeds_unreadable fs files w done x rest Hs E Hr Hx) as R. simpl in R.
    eexists. split; [exact R|]. repeat split.
    intros prog rest'. unfold main. simpl. now rewrite R.
Qed.

(** *** A file outside the discovery rules *)

Lemma lookup_remove_entry name fs f :
  f <> name -> lookup (remove_entry name fs) f = lookup fs f.
Proof.
  intros Hne. induction fs as [|[n x] fs IH]; simpl; [reflexivity|].
  destruct (String.eqb n name) eqn:E; simpl.
  - apply String.eqb_eq in E. subst n.
    destruct (String.eqb name f) eqn:E'; [|exact IH].
    apply String.eqb_eq in E'. congruence.
  - now rewrite IH.
Qed.

Lemma seed_prefix_not_migration name :
  PyStr.startswith name "seed_" = true -> is_migration_file name = false.
Proof.
  intros H. unfold is_migration_file. rewrite H. apply andb_false_r.
Qed.

Lemma get_migration_files_remove name fs :
  is_migration_file name = false ->
  get_migration_files (remove_entry name fs) = get_migration_files fs.
Proof.
  intros H. unfold get_migration_files. f_equal.
  induction fs as [|[n x] fs IH]; simpl; [reflexivity|].
  destruct (String.eqb n name) eqn:E; simpl.
  - apply String.eqb_eq in E. subst n. now rewrite H.
  - now rewrite IH.
Qed.

Lemma get_migration_files_In fs f :
  In f (get_migration_files fs) -> is_migration_file f = true.
Proof.
  unfold get_migration_files. rewrite PyStrFacts.sorted_In, filter_In. tauto.
Qed.

Lemma for_each_ext_in (body1 body2 : Body) l :
  (forall x, In x l -> forall w : World, body1 x w = body2 x w) ->
  forall w : World, for_each l body1 w = for_each l body2 w.
Proof.
  induction l as [|x l IH]; intros H w; simpl; [reflexivity|].
  unfold seq, bind. rewrite (H x) by now left.
  destruct (body2 x w) as [[[]|e] w1]; [|reflexivity].
  apply IH. intros y Hy. apply H. now right.
Qed.

Lemma run_migration_up_remove name fs f (w : World) :
  f <> name ->
  run_migration_up exec_sql own_commit (remove_entry name fs) f w
  = run_migration_up exec_sql own_commit fs f w.
Proof.
  intros H. now rewrite !run_migration_up_eq, lookup_remove_entry.
Qed.

Lemma run_migration_down_remove name fs f (w : World) :
  f <> name ->
  run_migration_down exec_sql own_commit (remove_entry name fs) f w
  = run_migration_down exec_sql own_commit fs f w.
Proof.
  intros H. now rewrite !run_migration_down_eq, lookup_remove_entry.
Qed.

Lemma seed_prefix_not_seeds_dir name :
  PyStr.startswith name "seed_" = true -> SEEDS_NAME <> name.
Proof. intros H <-. discriminate H. Qed.

(** C10.  A file of the migration directory whose name starts with
    [seed_] is not a migration file, and no command runs it: [migrate_up]
    and [run_seeds] behave as if the file were not there, and [migrate_up]
    never records its name.  [migrate_down] and [migrate_reset], which
    take their targets from the ledger, behave as if it were not there
    whenever the ledger does not hold its name. *)
Theorem stray_seed_file_is_never_run fs name :
  PyStr.startswith name "seed_" = true ->
  ~ In name (get_migration_files fs) /\
  (forall w : World,
     migrate_up exec_sql own_commit (remove_entry name fs) w = migrate_up exec_sql own_commit fs w) /\
  (forall w : World,
     run_seeds exec_sql own_commit (remove_entry name fs) w = run_seeds exec_sql own_commit fs w) /\
  (forall (w : World) r w',
     migrate_up exec_sql own_commit fs w = (r, w') ->
     ~ In name (ledger w) -> ~ In name (ledger w')) /\
  (forall w : World,
     ~ In name (ledger w) ->
     migrate_down exec_sql own_commit (remove_entry name fs) w = migrate_down exec_sql own_commit fs w /\
     migrate_reset exec_sql own_commit (remove_entry name fs) w
     = migrate_reset exec_sql own_commit fs w).
Proof.
  intros Hs. pose proof (seed_prefix_not_migration _ Hs) as Hm.
  assert (~ In name (get_migration_files fs)) as Hnot.
  { intros H. apply get_migration_files_In in H. congruence. }
  assert (forall l, ~ In name l -> forall x, In x l -> x <> name) as Hneq.
  { intros l Hl x Hx ->. contradiction. }
  split; [exact Hnot|]. split; [|split; [|split]].
  - intros w. rewrite !migrate_up_eq, get_migration_files_remove by exact Hm.
    destruct (pending_of _ _) as [|p ps] eqn:E; [reflexivity|].
    apply for_each_ext_in. intros x Hx w0. apply run_migration_up_remove.
    apply (Hneq (get_migration_files fs) Hnot).
    rewrite <- E in Hx. now apply pending_of_In in Hx.
  - intros w. unfold run_seeds.
    now rewrite (lookup_remove_entry fs (seed_prefix_not_seeds_dir Hs)).
  - intros w r w' H Hl.
    assert (~ In name (pending_of (get_migration_files fs)
                         (PyStr.sorted (ledger w)))) as Hp.
    { rewrite pending_of_In. tauto. }
    rewrite migrate_up_eq in H.
    destruct (pending_of _ _) as [|p ps] eqn:E.
    + injection H as <- <-. exact Hl.
    + destruct r as [[]|e].
      * destruct (up_loop_return _ _ (ensured w) (rows := ledger w) eq_refl H)
          as (Ht & _).
        unfold ledger at 1. unfold rows_of. rewrite Ht, in_app_iff. tauto.
      * destruct (for_each_raise _ _ _ H) as (done & x & rest & wm & El & Hd & Hx).
        destruct (run_migration_up_cases _ _ _ Hx)
          as [(? & _)|(e' & _ & Hc & _)]; [discriminate|].
        destruct (up_loop_return _ _ (ensured w) (rows := ledger w) eq_refl Hd)
          as (Ht & _).
        unfold ledger at 1. unfold rows_of. rewrite Hc, Ht, in_app_iff.
        intros [H1|H1]; [now apply Hl|]. apply Hp. rewrite El.
        apply in_or_app. now left.
  - intros w Hl. split.
    + rewrite !migrate_down_eq.
      destruct (PyStr.last_opt _) as [last|] eqn:E; [|reflexivity].
      apply run_migration_down_remove. intros ->. apply Hl.
      now apply PyStrFacts.last_sorted_greatest.
    + rewrite !migrate_reset_eq.
      destruct (PyStr.sorted (ledger w)) as [|a l] eqn:E; [reflexivity|].
      apply for_each_ext_in. intros x Hx w0. apply run_migration_down_remove.
      intros ->. apply Hl. apply PyStrFacts.sorted_In. rewrite E.
      now apply in_rev.
Qed.

End Semantics.

(** * The script on concrete inputs *)

(** C4: with the delimiter twice in the file, the down section is only
    the text between the two, not the whole text after the first. *)
Lemma down_section_cut_at_second_delimiter :
  down_sql_of demo_twice = Some "drop a;" /\
  down_body_spec demo_twice
  = Some ("drop a;" ++ nl ++ "-- DOWN" ++ nl ++ "extra")%string /\
  down_sql_of demo_twice <> down_body_spec demo_twice.
Proof.
  split; [reflexivity|]. split; [reflexivity|]. discriminate.
Qed.

(** The file [demo_twice], cut at its two delimiters. *)
Lemma down_section_stops_at_next_delimiter_witness :
  PyStr.first_occurrence DOWN_MARKER demo_twice
    ("-- UP" ++ nl ++ "create a;" ++ nl)
    (nl ++ "drop a;" ++ nl ++ "-- DOWN" ++ nl ++ "extra" ++ nl) /\
  PyStr.first_occurrence DOWN_MARKER
    (nl ++ "drop a;" ++ nl ++ "-- DOWN" ++ nl ++ "extra" ++ nl)
    (nl ++ "drop a;" ++ nl) (nl ++ "extra" ++ nl) /\
  down_sql_of demo_twice = Some (PyStr.strip (nl ++ "drop a;" ++ nl)).
Proof.
  assert (PyStr.first_occurrence DOWN_MARKER demo_twice
            ("-- UP" ++ nl ++ "create a;" ++ nl)
            (nl ++ "drop a;" ++ nl ++ "-- DOWN" ++ nl ++ "extra" ++ nl)) as H1
    by (apply find_first_iff; reflexivity).
  assert (PyStr.first_occurrence DOWN_MARKER
            (nl ++ "drop a;" ++ nl ++ "-- DOWN" ++ nl ++ "extra" ++ nl)
            (nl ++ "drop a;" ++ nl) (nl ++ "extra" ++ nl)) as H2
    by (apply find_first_iff; reflexivity).
  split; [exact H1|]. split; [exact H2|].
  exact (proj2 (proj2 (down_section_stops_at_next_delimiter demo_twice) _ _ H1)
           _ _ H2).
Defined.

(** One migration applied, two pending. *)
Lemma up_applies_exactly_pending_witness :
  exists w',
    migrate_up demo_exec no_commit demo_fs (demo_world (Some ["001_a.sql"])) = (Return tt, w') /\
    stdout w' = [MsgApplied "002_b.sql"; MsgApplied "003_c.sql"] /\
    ledger w' = ["001_a.sql"; "002_b.sql"; "003_c.sql"] /\
    migrate_up demo_exec no_commit demo_fs w'
    = (Return tt, mkWorld (committed w') None (stdout w' ++ [MsgNoPending])).
Proof.
  set (w := demo_world (Some ["001_a.sql"])).
  set (w' := snd (migrate_up demo_exec no_commit demo_fs w)).
  assert (migrate_up demo_exec no_commit demo_fs w = (Return tt, w')) as H
    by (vm_compute; reflexivity).
  exists w'. split; [exact H|].
  destruct (@up_applies_exactly_pending _ _ demo_exec no_commit demo_fs w w' H)
    as (_ & _ & _ & Ho & Hl & H2).
  split; [exact Ho|]. split; [exact Hl | exact H2].
Defined.

(** C2: an up script that commits by itself and fails afterwards.  The
    run raises and the ledger has no entry, yet what the script committed
    stays in the database. *)
Lemma up_commit_in_script_survives_failure :
  exists e w',
    run_migration_up commit_exec commit_own demo_fs_commit "001_a.sql"
      (demo_world (Some []))
    = (Raise e, w') /\
    main commit_exec commit_own demo_fs_commit ["migrate.py"; "up"]
      (demo_world (Some []))
    = (1, mkWorld (committed w') None (stdout w' ++ [MsgMigrationFailed e])) /\
    ledger w' = [] /\
    data (committed w') = ["create a;"] /\
    committed w' <> committed (demo_world (Some [])).
Proof.
  eexists. eexists. split; [vm_compute; reflexivity|].
  split; [vm_compute; reflexivity|].
  split; [reflexivity|]. split; [reflexivity | discriminate].
Qed.

(** The second of three pending migrations is rejected. *)
Lemma up_unit_atomic_and_fail_fast_witness :
  exists e w' done x rest w_mid,
    migrate_up demo_exec no_commit demo_fs_bad (demo_world None) = (Raise e, w') /\
    pending_of (get_migration_files demo_fs_bad)
      (PyStr.sorted (ledger (demo_world None)))
    = done ++ x :: rest /\
    for_each done (run_migration_up demo_exec no_commit demo_fs_bad)
      (ensured (demo_world None))
    = (Return tt, w_mid) /\
    run_migration_up demo_exec no_commit demo_fs_bad x w_mid = (Raise e, w') /\
    committed w' = committed w_mid /\
    ledger w' = ledger (demo_world None) ++ done.
Proof.
  set (w := demo_world None).
  set (w' := snd (migrate_up demo_exec no_commit demo_fs_bad w)).
  set (e := DatabaseError (SqlFailed "syntax error") : exn string).
  assert (migrate_up demo_exec no_commit demo_fs_bad w = (Raise e, w')) as H
    by (vm_compute; reflexivity).
  destruct (@up_unit_atomic_and_fail_fast _ _ demo_exec no_commit demo_fs_bad)
    as (Hunit & Hstop & _).
  destruct (Hstop w e w' H) as (done & x & rest & wm & H1 & H2 & H3 & H5).
  exists e, w', done, x, rest, wm.
  split; [exact H|]. split; [exact H1|]. split; [exact H2|]. split; [exact H3|].
  split; [|exact H5].
  destruct (Hunit x wm _ w' H3) as [(Hr & _)|(e' & _ & _ & Hc)];
    [discriminate Hr|].
  apply Hc. intros content _. reflexivity.
Defined.

(** The greatest identifier of the ledger is a reversible script that
    [get_migration_files] does not list. *)
Lemma down_targets_greatest_of_ledger_witness :
  ledger (demo_world (Some ["seed_x.sql"; "001_a.sql"])) <> [] /\
  get_migration_files demo_fs_seed_name = [] /\
  migrate_down demo_exec no_commit demo_fs_seed_name
    (demo_world (Some ["seed_x.sql"; "001_a.sql"]))
  = (Return tt,
     mkWorld (mkDb (Some ["001_a.sql"]) ["delete x;"]) None
       [MsgRolledBack "seed_x.sql"]).
Proof.
  assert (ledger (demo_world (Some ["seed_x.sql"; "001_a.sql"])) <> []) as H
    by discriminate.
  split; [exact H|]. split; [reflexivity|].
  destruct (@down_targets_greatest_of_ledger _ _ demo_exec no_commit _ H)
    as (last & Hin & Hmax & _ & Hfs).
  destruct Hin as [<-|[<-|[]]].
  - exact (proj1 (proj2 (Hfs demo_fs_seed_name))
             (script "insert x;" "delete x;") "delete x;" ["delete x;"]
             eq_refl eq_refl eq_refl).
  - specialize (Hmax "seed_x.sql" (or_introl eq_refl)). discriminate Hmax.
Defined.

(** A file whose up section is empty, on a database that refuses the
    empty statement. *)
Lemma empty_up_body_is_rejected_witness :
  (forall d, exists e, demo_exec EmptyString d = inr e) /\
  up_sql_of (script "" "drop a;") = EmptyString /\
  exists e,
    run_migration_up demo_exec no_commit demo_fs_empty "001_a.sql" (demo_world None)
    = (Raise e, mkWorld (committed (demo_world None)) None
                  (stdout (demo_world None) ++ [MsgErrorApplying "001_a.sql" e])).
Proof.
  assert (forall d, exists e, demo_exec EmptyString d = inr e) as H
    by (intros d; eexists; reflexivity).
  split; [exact H|]. split; [reflexivity|].
  destruct (proj1 (@empty_up_body_is_rejected _ _ demo_exec no_commit demo_fs_empty
                     "001_a.sql" (script "" "drop a;") H eq_refl eq_refl)
              (demo_world None)) as (e & d' & Hrun & _ & Hd).
  exists e. rewrite (Hd eq_refl) in Hrun. exact Hrun.
Defined.

(** The last applied migration has no down section. *)
Lemma down_without_delimiter_keeps_entry_witness :
  exists w',
    migrate_down demo_exec no_commit demo_fs (demo_world (Some ["003_c.sql"; "001_a.sql"]))
    = (Return tt, w') /\
    stdout w' = [MsgNoDownFound "003_c.sql"] /\
    In "003_c.sql" (ledger w').
Proof.
  assert (~ exists b a, ("create c;" ++ nl = b ++ DOWN_MARKER ++ a)%string) as Hn
    by (apply PyStrFacts.find_first_None; reflexivity).
  destruct (proj2 (@down_without_delimiter_keeps_entry _ _ demo_exec no_commit demo_fs
                     "003_c.sql" ("create c;" ++ nl)%string eq_refl Hn)
              (demo_world (Some ["003_c.sql"; "001_a.sql"])) eq_refl)
    as (w' & Hr & Ho & _ & Hin & _).
  exists w'. split; [exact Hr|]. split; [exact Ho | exact Hin].
Defined.

(** Three applied migrations, all reversible. *)
Lemma reset_rolls_back_in_reverse_witness :
  ledger (demo_world (Some ["002_b.sql"; "003_c.sql"; "001_a.sql"])) <> [] /\
  rollback_data demo_exec demo_fs_abc ["003_c.sql"; "002_b.sql"; "001_a.sql"] []
  = Some ["drop c;"; "drop b;"; "drop a;"] /\
  migrate_reset demo_exec no_commit demo_fs_abc
    (demo_world (Some ["002_b.sql"; "003_c.sql"; "001_a.sql"]))
  = (Return tt,
     mkWorld (mkDb (Some []) ["drop c;"; "drop b;"; "drop a;"]) None
       [MsgRolledBack "003_c.sql"; MsgRolledBack "002_b.sql";
        MsgRolledBack "001_a.sql"]).
Proof.
  assert (ledger (demo_world (Some ["002_b.sql"; "003_c.sql"; "001_a.sql"])) <> [])
    as H by discriminate.
  split; [exact H|]. split; [reflexivity|].
  exact (proj2 (proj2 (@reset_rolls_back_in_reverse _ _ demo_exec no_commit
                         demo_fs_abc
                         (demo_world (Some ["002_b.sql"; "003_c.sql"; "001_a.sql"]))))
           ["drop c;"; "drop b;"; "drop a;"] H eq_refl).
Defined.

(** Every migration applied: [down] then [up] brings the last one back. *)
Lemma down_then_up_restores_ledger_witness :
  exists w1 w2,
    migrate_down demo_exec no_commit demo_fs_abc
      (demo_world (Some ["001_a.sql"; "002_b.sql"; "003_c.sql"]))
    = (Return tt, w1) /\
    migrate_up demo_exec no_commit demo_fs_abc w1 = (Return tt, w2) /\
    ~ In "003_c.sql" (ledger w1) /\
    forall v, In v (ledger w2) <-> In v ["001_a.sql"; "002_b.sql"; "003_c.sql"].
Proof.
  set (w := demo_world (Some ["001_a.sql"; "002_b.sql"; "003_c.sql"])).
  set (w1 := snd (migrate_down demo_exec no_commit demo_fs_abc w)).
  set (w2 := snd (migrate_up demo_exec no_commit demo_fs_abc w1)).
  assert (forall m, In m (get_migration_files demo_fs_abc) -> In m (ledger w))
    as Hall by (intros m Hm; exact Hm).
  assert (In "003_c.sql" (get_migration_files demo_fs_abc)) as HM
    by (right; right; left; reflexivity).
  assert (migrate_down demo_exec no_commit demo_fs_abc w = (Return tt, w1)) as Hd
    by (vm_compute; reflexivity).
  assert (stdout w1 = stdout w ++ [MsgRolledBack "003_c.sql"]) as Ho
    by reflexivity.
  assert (migrate_up demo_exec no_commit demo_fs_abc w1 = (Return tt, w2)) as Hu
    by (vm_compute; reflexivity).
  destruct (@down_then_up_restores_ledger _ _ demo_exec no_commit demo_fs_abc w w1 w2
              "003_c.sql" Hall HM Hd Ho Hu) as (_ & Hn & _ & Hset).
  exists w1, w2. split; [exact Hd|]. split; [exact Hu|]. split; [exact Hn | exact Hset].
Defined.

(** C8: the ledger after [down] then [up] differs from the one before
    when another migration was pending, when the up script no longer
    succeeds, and when the rolled-back name is not a migration file. *)
Lemma down_then_up_changes_ledger :
  (exists w1 w2,
     migrate_down demo_exec no_commit demo_fs (demo_world (Some ["001_a.sql"; "002_b.sql"]))
     = (Return tt, w1) /\
     stdout w1 = [MsgRolledBack "002_b.sql"] /\
     migrate_up demo_exec no_commit demo_fs w1 = (Return tt, w2) /\
     ledger w2 = ["001_a.sql"; "002_b.sql"; "003_c.sql"] /\
     ledger w2 <> ledger (demo_world (Some ["001_a.sql"; "002_b.sql"]))) /\
  (exists w1 e w2,
     migrate_down strict_exec no_commit demo_fs_abc
       (demo_world_with (Some ["001_a.sql"; "002_b.sql"; "003_c.sql"])
          ["create a;"; "create b;"; "create c;"])
     = (Return tt, w1) /\
     stdout w1 = [MsgRolledBack "003_c.sql"] /\
     migrate_up strict_exec no_commit demo_fs_abc w1 = (Raise e, w2) /\
     ledger w2 = ["001_a.sql"; "002_b.sql"]) /\
  (exists w1 w2,
     migrate_down demo_exec no_commit demo_fs_seed_name (demo_world (Some ["seed_x.sql"]))
     = (Return tt, w1) /\
     stdout w1 = [MsgRolledBack "seed_x.sql"] /\
     migrate_up demo_exec no_commit demo_fs_seed_name w1 = (Return tt, w2) /\
     ledger w2 = []).
Proof.
  split; [|split].
  - eexists. eexists. split; [vm_compute; reflexivity|].
    split; [reflexivity|]. split; [vm_compute; reflexivity|].
    split; [reflexivity | discriminate].
  - eexists. eexists. eexists. split; [vm_compute; reflexivity|].
    split; [reflexivity|]. split; [vm_compute; reflexivity | reflexivity].
  - eexists. eexists. split; [vm_compute; reflexivity|].
    split; [reflexivity|]. split; [vm_compute; reflexivity | reflexivity].
Qed.

(** C9: a [.sql] entry of the seed directory that cannot be read ends
    the command: the seed before it is committed, the seed after it is
    not run, the connection stays open and the process exits with
    status 1.  And a seed that commits by itself and fails afterwards is
    reported, but keeps what it committed. *)
Lemma seed_run_ends_at_unreadable_entry :
  main demo_exec no_commit demo_fs_seed_dir ["migrate.py"; "seed"] (demo_world None)
  = (1,
     mkWorld (mkDb None ["insert 1;"]) (Some (InBlock (mkDb None ["insert 1;"])))
       [MsgSeeded "s1.sql";
        MsgMigrationFailed (OSError "migrations/seeds/s2.sql")]) /\
  main commit_exec commit_own demo_fs_seed_commit ["migrate.py"; "seed"]
    (demo_world None)
  = (0,
     mkWorld (mkDb None ["insert 1;"]) None
       [MsgErrorSeeding "s1.sql" (DatabaseError (SqlFailed "syntax error"))]) /\
  ["insert 1;"] <> data (committed (demo_world None)).
Proof.
  split; [vm_compute; reflexivity|]. split; [vm_compute; reflexivity|].
  discriminate.
Qed.

(** Every [.sql] entry of [demo_seeds] is a file. *)
Lemma demo_seeds_readable :
  forall f, In f (seed_files_of demo_seeds) -> readable demo_seeds f.
Proof.
  intros f Hf. vm_compute in Hf.
  destruct Hf as [<-|[<-|[<-|[]]]]; eexists; reflexivity.
Qed.

(** Three seed files, the second one rejected. *)
Lemma seeds_run_in_isolation_witness :
  lookup demo_fs SEEDS_NAME = Some (Dir demo_seeds) /\
  (forall f, In f (seed_files_of demo_seeds) -> readable demo_seeds f) /\
  exists w',
    main demo_exec no_commit demo_fs ["migrate.py"; "seed"] (demo_world None) = (0, w') /\
    stdout w'
    = [MsgSeeded "s1.sql";
       MsgErrorSeeding "s2.sql" (DatabaseError (SqlFailed "syntax error"));
       MsgSeeded "s3.sql"] /\
    data (committed w') = ["insert 1;"; "insert 3;"].
Proof.
  pose proof demo_seeds_readable as Hr.
  split; [reflexivity|]. split; [exact Hr|].
  destruct (proj1 (proj2 (@seeds_run_in_isolation _ _ demo_exec no_commit demo_fs
                            demo_seeds (demo_world None) eq_refl)) Hr)
    as (w' & _ & Ho & _ & Hd & _ & Hmain).
  exists w'. split; [apply Hmain|]. split; [exact Ho | exact Hd].
Defined.

(** The file [seed_x.sql] of the migration directory. *)
Lemma stray_seed_file_is_never_run_witness :
  PyStr.startswith "seed_x.sql" "seed_" = true /\
  PyStr.endswith "seed_x.sql" ".sql" = true /\
  ~ In "seed_x.sql" (get_migration_files demo_fs) /\
  migrate_up demo_exec no_commit (remove_entry "seed_x.sql" demo_fs) (demo_world None)
  = migrate_up demo_exec no_commit demo_fs (demo_world None) /\
  run_seeds demo_exec no_commit (remove_entry "seed_x.sql" demo_fs) (demo_world None)
  = run_seeds demo_exec no_commit demo_fs (demo_world None).
Proof.
  destruct (@stray_seed_file_is_never_run _ _ demo_exec no_commit demo_fs "seed_x.sql" eq_refl)
    as (Hn & Hup & Hseed & _).
  split; [reflexivity|]. split; [reflexivity|]. split; [exact Hn|].
  split; [apply Hup | apply Hseed].
Defined.

(** ** Further runs *)

Example split_cuts_at_every_delimiter :
  PyStr.split "a-- DOWNb-- DOWNc" "-- DOWN" = ["a"; "b"; "c"]
  /\ PyStr.split "select 1" "-- DOWN" = ["select 1"]
  /\ PyStr.split "-- DOWN" "-- DOWN" = [""; ""].
Proof. repeat split. Qed.

Example replace_removes_every_marker :
  PyStr.replace "-- UP x -- UPDATE" "-- UP" "" = " x DATE"
  /\ PyStr.replace "-- -- UPUP" "-- UP" "" = "-- UP".
Proof. repeat split. Qed.

Example strip_trims_both_ends :
  PyStr.strip (nl ++ "  create a; " ++ nl) = "create a;"
  /\ PyStr.strip (nl ++ " ") = "".
Proof. repeat split. Qed.

Example migration_files_are_sorted_and_filtered :
  get_migration_files demo_fs = ["001_a.sql"; "002_b.sql"; "003_c.sql"].
Proof. reflexivity. Qed.

Example up_from_scratch :
  migrate_up demo_exec no_commit demo_fs (demo_world None)
  = (Return tt,
     mkWorld (mkDb (Some ["001_a.sql"; "002_b.sql"; "003_c.sql"])
                ["create a;"; "create b;"; "create c;"])
       None
       [MsgApplied "001_a.sql"; MsgApplied "002_b.sql"; MsgApplied "003_c.sql"]).
Proof. vm_compute. reflexivity. Qed.

Example up_stops_at_the_rejected_script :
  main demo_exec no_commit demo_fs_bad ["migrate.py"; "up"] (demo_world None)
  = (1,
     mkWorld (mkDb (Some ["001_a.sql"]) ["create a;"]) None
       [MsgApplied "001_a.sql";
        MsgErrorApplying "002_bad.sql" (DatabaseError (SqlFailed "syntax error"));
        MsgMigrationFailed (DatabaseError (SqlFailed "syntax error"))]).
Proof. vm_compute. reflexivity. Qed.

Example down_on_a_deleted_file :
  main demo_exec no_commit demo_fs ["migrate.py"; "down"]
    (demo_world (Some ["zzz.sql"; "001_a.sql"]))
  = (1,
     mkWorld (mkDb (Some ["zzz.sql"; "001_a.sql"]) []) None
       [MsgMigrationFailed (OSError "migrations/zzz.sql")]).
Proof. vm_compute. reflexivity. Qed.

Example reset_goes_past_a_missing_down_section :
  migrate_reset demo_exec no_commit demo_fs
    (demo_world (Some ["001_a.sql"; "002_b.sql"; "003_c.sql"]))
  = (Return tt,
     mkWorld (mkDb (Some ["003_c.sql"]) ["drop b;"; "drop a;"]) None
       [MsgNoDownFound "003_c.sql"; MsgRolledBack "002_b.sql";
        MsgRolledBack "001_a.sql"]).
Proof. vm_compute. reflexivity. Qed.

Example none_is_printed_for_the_usage :
  main demo_exec no_commit demo_fs ["migrate.py"] (demo_world None)
  = (1, mkWorld (mkDb None []) None [MsgDoc None])
  /\ main demo_exec no_commit demo_fs ["migrate.py"; "status"] (demo_world None)
     = (1, mkWorld (mkDb None []) None [MsgUnknownCommand "status"; MsgDoc None]).
Proof. split; reflexivity. Qed.

Example failed_statement_aborts_the_transaction :
  (seq (@get_connection (list string) string)
     (try_except (execute demo_exec no_commit "!bad")
        (fun _ => execute demo_exec no_commit "create a;")))
    (demo_world None)
  = (Raise (DatabaseError InFailedTransaction),
     mkWorld (mkDb None []) (Some Failed) [])
  /\ (seq (@get_connection (list string) string)
        (try_except (execute demo_exec no_commit "!bad")
           (fun _ => seq (@rollback (list string) string)
                       (execute demo_exec no_commit "create a;"))))
       (demo_world None)
     = (Return tt,
        mkWorld (mkDb None []) (Some (InBlock (mkDb None ["create a;"]))) []).
Proof. split; reflexivity. Qed.

(** * Further properties of the script *)

(** ** Sorting is canonical *)

Module SortedFacts.
Import PyStr.

Lemma StronglySorted_head_least x l :
  StronglySorted le (x :: l) -> forall y, In y (x :: l) -> le x y.
Proof.
  intros H y [<-|Hy]; [apply PyStrFacts.leb_refl|].
  apply StronglySorted_inv in H. destruct H as [_ H].
  rewrite Forall_forall in H. now apply H.
Qed.

(** Two sorted lists with the same elements, counted, are equal. *)
Lemma StronglySorted_unique l : forall l',
  StronglySorted le l -> StronglySorted le l' -> Permutation l l' -> l = l'.
Proof.
  induction l as [|x l IH]; intros [|y l'] Hs Hs' Hp.
  - reflexivity.
  - apply Permutation_nil in Hp. discriminate.
  - apply Permutation_sym, Permutation_nil in Hp. discriminate.
  - assert (x = y) as <-.
    { apply String.leb_antisym.
      - apply (StronglySorted_head_least Hs).
        apply Permutation_in with (y :: l'); [now apply Permutation_sym | now left].
      - apply (StronglySorted_head_least Hs').
        apply Permutation_in with (x :: l); [exact Hp | now left]. }
    f_equal. apply IH.
    + now apply StronglySorted_inv in Hs.
    + now apply StronglySorted_inv in Hs'.
    + now apply Permutation_cons_inv with x.
Qed.

Lemma sorted_of_permutation l l' : Permutation l l' -> sorted l = sorted l'.
Proof.
  intros Hp. apply StronglySorted_unique;
    try apply PyStrFacts.sorted_StronglySorted.
  apply perm_trans with l; [apply PyStrFacts.sorted_perm|].
  apply perm_trans with l'; [exact Hp|].
  apply Permutation_sym, PyStrFacts.sorted_perm.
Qed.

Lemma filter_of_permutation {A : Type} (f : A -> bool) l l' :
  Permutation l l' -> Permutation (filter f l) (filter f l').
Proof.
  induction 1 as [|x l l' _ IH|x y l|l l' l'' _ IH1 _ IH2]; simpl.
  - constructor.
  - destruct (f x); [now constructor | exact IH].
  - destruct (f x), (f y); try apply Permutation_refl. apply perm_swap.
  - now apply perm_trans with (filter f l').
Qed.

Lemma sorted_NoDup l : NoDup l -> NoDup (sorted l).
Proof.
  apply Permutation_NoDup, Permutation_sym, PyStrFacts.sorted_perm.
Qed.

End SortedFacts.

(** ** More on the parser's string operations *)

Module ParserFacts.
Import PyStr.

Lemma split_fuel_not_nil n sep s : split_fuel n sep s <> [].
Proof.
  destruct n as [|n]; simpl; [discriminate|].
  destruct (find_first sep s) as [[b a]|]; discriminate.
Qed.

Lemma concat_cons sep x l :
  l <> [] -> String.concat sep (x :: l) = (x ++ sep ++ String.concat sep l)%string.
Proof. destruct l; [congruence | reflexivity]. Qed.

(** Joining the parts gives the text back. *)
Lemma split_fuel_concat sep : sep <> EmptyString ->
  forall n s, String.length s < n -> String.concat sep (split_fuel n sep s) = s.
Proof.
  intros Hsep. induction n as [|n IH]; intros s Hn; [lia|].
  simpl. destruct (find_first sep s) as [[b a]|] eqn:F; [|reflexivity].
  pose proof (PyStrFacts.find_first_shorter _ Hsep F) as Hlt.
  rewrite concat_cons by apply split_fuel_not_nil.
  rewrite IH by lia. symmetry. now apply PyStrFacts.find_first_app.
Qed.

(** The text before the first occurrence holds no occurrence. *)
Lemma find_first_before_free sep s b a :
  sep <> EmptyString -> find_first sep s = Some (b, a) -> find_first sep b = None.
Proof.
  intros Hsep F. apply PyStrFacts.find_first_None. intros (b1 & a1 & E).
  pose proof (PyStrFacts.find_first_app _ _ F) as Es.
  assert (s = (b1 ++ sep ++ (a1 ++ sep ++ a))%string) as Es'.
  { rewrite Es, E. now rewrite !PyStrFacts.append_assoc. }
  pose proof (PyStrFacts.find_first_leftmost _ _ _ F Es') as L.
  rewrite E, !PyStrFacts.length_append in L.
  destruct sep; [congruence | simpl in L; lia].
Qed.

Lemma split_fuel_parts_free sep : sep <> EmptyString ->
  forall n s, String.length s < n ->
  Forall (fun part => find_first sep part = None) (split_fuel n sep s).
Proof.
  intros Hsep. induction n as [|n IH]; intros s Hn; [lia|].
  simpl. destruct (find_first sep s) as [[b a]|] eqn:F.
  - pose proof (PyStrFacts.find_first_shorter _ Hsep F) as Hlt.
    constructor; [now apply find_first_before_free with s a | apply IH; lia].
  - now repeat constructor.
Qed.

Lemma replace_absent s old new :
  find_first old s = None -> replace s old new = s.
Proof. intros H. unfold replace. simpl. now rewrite H. Qed.

(** *** Whitespace *)

Lemma lstrip_all_space s : all_space (lstrip s) = all_space s.
Proof.
  induction s as [|c s IH]; simpl; [reflexivity|].
  destruct (isspace c) eqn:E; simpl; [exact IH | now rewrite E].
Qed.

Lemma rstrip_empty_iff s : rstrip s = EmptyString <-> all_space s = true.
Proof.
  induction s as [|c s IH]; simpl; [now split|].
  destruct (rstrip s) as [|d r] eqn:R.
  - destruct (isspace c); simpl.
    + rewrite <- IH. now split.
    + split; discriminate.
  - split; [discriminate|]. intros H. apply andb_true_iff in H.
    destruct H as [_ H]. apply IH in H. discriminate.
Qed.

Lemma strip_empty_iff s : strip s = EmptyString <-> all_space s = true.
Proof.
  unfold strip. now rewrite rstrip_empty_iff, lstrip_all_space.
Qed.

Lemma lstrip_head s c r : lstrip s = String c r -> isspace c = false.
Proof.
  induction s as [|d s IH]; simpl; [discriminate|].
  destruct (isspace d) eqn:E; [exact IH|]. now intros [= <- _].
Qed.

Lemma rstrip_head s c r : rstrip s = String c r -> exists r', s = String c r'.
Proof.
  destruct s as [|d s]; simpl; [discriminate|].
  destruct (rstrip s); [destruct (isspace d)|]; intros [= <- _]; try discriminate;
    now eexists.
Qed.

Lemma rstrip_idempotent s : rstrip (rstrip s) = rstrip s.
Proof.
  induction s as [|c s IH]; simpl; [reflexivity|].
  destruct (rstrip s) as [|d r] eqn:R.
  - destruct (isspace c) eqn:E; simpl; [reflexivity | now rewrite E].
  - simpl in *. now rewrite IH.
Qed.

Lemma lstrip_fixed s c r : s = String c r -> isspace c = false -> lstrip s = s.
Proof. intros -> H. simpl. now rewrite H. Qed.

Lemma strip_idempotent s : strip (strip s) = strip s.
Proof.
  unfold strip. destruct (rstrip (lstrip s)) as [|c r] eqn:R; [reflexivity|].
  destruct (rstrip_head _ R) as [r' E].
  pose proof (lstrip_head _ E) as Hc.
  rewrite (lstrip_fixed eq_refl Hc). rewrite <- R. apply rstrip_idempotent.
Qed.

End ParserFacts.

Section Coverage.

Variables (Data SqlError : Type).
Variable exec_sql : string -> Data -> Data + SqlError.
Variable own_commit : string -> Data -> option Data.

Abbreviation World := (world Data SqlError).
Abbreviation Body := (string -> M Data SqlError unit).

(** ** Discovery and the ledger query *)

(** X1.  [get_migration_files] does not depend on the order in which the
    operating system lists the directory.  Its result is ascending and
    holds exactly the listed names that end in [.sql] and do not start
    with [seed_]; a directory without such a name gives the empty
    list. *)
Theorem migration_files_are_canonical fs :
  StronglySorted PyStr.le (get_migration_files fs) /\
  (forall f,
     In f (get_migration_files fs)
     <-> In f (listdir fs) /\ PyStr.endswith f ".sql" = true
         /\ PyStr.startswith f "seed_" = false) /\
  (forall fs', Permutation fs fs' ->
     get_migration_files fs' = get_migration_files fs) /\
  ((forall f, In f (listdir fs) -> is_migration_file f = false) ->
   get_migration_files fs = []).
Proof.
  split; [apply PyStrFacts.sorted_StronglySorted|]. split; [|split].
  - intros f. unfold get_migration_files, is_migration_file.
    rewrite PyStrFacts.sorted_In, filter_In, andb_true_iff, negb_true_iff.
    reflexivity.
  - intros fs' Hp. unfold get_migration_files.
    apply SortedFacts.sorted_of_permutation, SortedFacts.filter_of_permutation.
    unfold listdir. now apply Permutation_map, Permutation_sym.
  - intros Hnone. unfold get_migration_files.
    destruct (filter is_migration_file (listdir fs)) as [|f l] eqn:E; [reflexivity|].
    assert (In f (filter is_migration_file (listdir fs))) as Hf
      by (rewrite E; now left).
    apply filter_In in Hf. destruct Hf as [Hin Ht].
    rewrite (Hnone f Hin) in Ht. discriminate.
Qed.

(** X2.  [create_migrations_table] always returns.  It creates the
    tracking table when it is absent and otherwise changes nothing: the
    ledger and the application data are kept, nothing is printed, the
    connection is closed, and a second call leaves the world as the
    first one did. *)
Theorem create_table_is_idempotent (w : World) :
  exists w1,
    create_migrations_table w = (Return tt, w1) /\
    table (committed w1) = Some (ledger w) /\
    data (committed w1) = data (committed w) /\
    stdout w1 = stdout w /\
    session w1 = None /\
    create_migrations_table w1 = (Return tt, w1).
Proof.
  exists (ensured w). rewrite !create_migrations_table_eq.
  repeat split.
Qed.

(** X3.  On a database without the tracking table
    [get_applied_migrations] raises, and the connection it opened stays
    open, its transaction aborted: the query is not under a [finally].
    With the table it returns
    the recorded identifiers in ascending order, each as often as
    recorded, whatever the order of insertion, and leaves the database
    and the output as they were. *)
Theorem applied_migrations_are_sorted_rows (w : World) :
  (table (committed w) = None ->
   get_applied_migrations w
   = (Raise (DatabaseError UndefinedTable),
      mkWorld (committed w) (Some Failed) (stdout w))) /\
  (forall rows,
     table (committed w) = Some rows ->
     exists applied,
       get_applied_migrations w
       = (Return applied, mkWorld (committed w) None (stdout w)) /\
       StronglySorted PyStr.le applied /\
       Permutation applied rows /\
       forall (w2 : World) rows2,
         table (committed w2) = Some rows2 -> Permutation rows rows2 ->
         fst (get_applied_migrations w2) = Return applied).
Proof.
  split.
  - destruct w as [[t dat] s o]; simpl. intros ->. reflexivity.
  - intros rows Ht. exists (PyStr.sorted rows).
    rewrite (get_applied_migrations_eq _ Ht).
    split; [reflexivity|].
    split; [apply PyStrFacts.sorted_StronglySorted|].
    split; [apply PyStrFacts.sorted_perm|].
    intros w2 rows2 Ht2 Hp. rewrite (get_applied_migrations_eq _ Ht2). simpl.
    f_equal. now apply SortedFacts.sorted_of_permutation, Permutation_sym.
Qed.

(** ** What every command keeps *)

(** A property of the world kept by every iteration is kept by the
    loop, however it ends. *)
Lemma for_each_invariant (P : World -> Prop) (body : Body) l :
  (forall x w r w', In x l -> body x w = (r, w') -> P w -> P w') ->
  forall w r w', for_each l body w = (r, w') -> P w -> P w'.
Proof.
  induction l as [|x l IH]; intros Hbody w r w'; simpl.
  - now intros [= <- <-].
  - unfold seq, bind. destruct (body x w) as [[[]|e] w1] eqn:B.
    + intros H Hw. apply (IH (fun y w0 r0 w0' Hy => Hbody y w0 r0 w0' (or_intror Hy))
                           _ _ _ H).
      apply (Hbody x w _ _ (or_introl eq_refl) B Hw).
    + intros [= <- <-] Hw. apply (Hbody x w _ _ (or_introl eq_refl) B Hw).
Qed.

(** The ways [main] ends. *)
Lemma main_cases fs argv (w : World) :
  (main exec_sql own_commit fs argv w = (1, snd (print (MsgDoc module_doc) w))
   /\ List.length argv < 2)
  \/ (exists prog command rest,
        argv = prog :: command :: rest /\
        command <> "up" /\ command <> "down" /\ command <> "reset"
        /\ command <> "seed" /\
        main exec_sql own_commit fs argv w
        = (1, mkWorld (committed w) (session w)
                (stdout w ++ [MsgUnknownCommand command; MsgDoc module_doc])))
  \/ (exists prog command rest m,
        argv = prog :: command :: rest /\
        ((command = "up" /\ m = migrate_up exec_sql own_commit fs)
         \/ (command = "down" /\ m = migrate_down exec_sql own_commit fs)
         \/ (command = "reset" /\ m = migrate_reset exec_sql own_commit fs)
         \/ (command = "seed" /\ m = run_seeds exec_sql own_commit fs)) /\
        main exec_sql own_commit fs argv w
        = match m w with
          | (Return _, w') => (0, w')
          | (Raise e, w') =>
              (1, mkWorld (committed w') (session w')
                    (stdout w' ++ [MsgMigrationFailed e]))
          end).
Proof.
  destruct argv as [|prog [|command rest]].
  - left. split; [reflexivity | simpl; lia].
  - left. split; [reflexivity | simpl; lia].
  - right. unfold main.
    destruct (String.eqb_spec command "up") as [->|Hu].
    { right. exists prog, "up", rest, (migrate_up exec_sql own_commit fs).
      split; [reflexivity|]. split; [now left|].
      destruct (migrate_up exec_sql own_commit fs w) as [[[]|e] w']; reflexivity. }
    destruct (String.eqb_spec command "down") as [->|Hd].
    { right. exists prog, "down", rest, (migrate_down exec_sql own_commit fs).
      split; [reflexivity|]. split; [right; now left|].
      destruct (migrate_down exec_sql own_commit fs w) as [[[]|e] w']; reflexivity. }
    destruct (String.eqb_spec command "reset") as [->|Hr].
    { right. exists prog, "reset", rest, (migrate_reset exec_sql own_commit fs).
      split; [reflexivity|]. split; [right; right; now left|].
      destruct (migrate_reset exec_sql own_commit fs w) as [[[]|e] w']; reflexivity. }
    destruct (String.eqb_spec command "seed") as [->|Hs].
    { right. exists prog, "seed", rest, (run_seeds exec_sql own_commit fs).
      split; [reflexivity|]. split; [right; right; now right|].
      destruct (run_seeds exec_sql own_commit fs w) as [[[]|e] w']; reflexivity. }
    left. exists prog, command, rest. repeat split; try assumption.
    unfold seq, bind, print. simpl. now rewrite <- app_assoc.
Qed.

(** The entries of a list can all be read, or there is a first one
    that cannot. *)
Lemma first_unreadable files l :
  (forall f, In f l -> readable files f)
  \/ exists done x rest,
       l = done ++ x :: rest /\
       (forall f, In f done -> readable files f) /\ ~ readable files x.
Proof.
  induction l as [|a l IH].
  - left. intros f [].
  - destruct (lookup files a) as [[c|sub]|] eqn:L.
    + destruct IH as [IH|(done & x & rest & -> & Hd & Hx)].
      * left. intros f [<-|Hf]; [now exists c | now apply IH].
      * right. exists (a :: done), x, rest. split; [reflexivity|].
        split; [|exact Hx]. intros f [<-|Hf]; [now exists c | now apply Hd].
    + right. exists [], a, l. split; [reflexivity|].
      split; [intros f []|]. intros [c Hc]. congruence.
    + right. exists [], a, l. split; [reflexivity|].
      split; [intros f []|]. intros [c Hc]. congruence.
Qed.

(** The two ways [run_seeds] ends when the seed directory is there. *)
Lemma run_seeds_cases fs files (w : World) :
  lookup fs SEEDS_NAME = Some (Dir files) ->
  ((forall f, In f (seed_files_of files) -> readable files f) /\
   run_seeds exec_sql own_commit fs w
   = (Return tt,
      match seed_files_of files with
      | [] => mkWorld (committed w) (session w) (stdout w ++ [MsgNoSeedFiles])
      | _ =>
          mkWorld
            (mkDb (table (committed w))
               (fold_left (seed_unit exec_sql own_commit files) (seed_files_of files)
                  (data (committed w))))
            None
            (stdout w
             ++ seed_reports exec_sql own_commit files (data (committed w))
                  (seed_files_of files))
      end))
  \/ (exists done x rest,
        seed_files_of files = done ++ x :: rest /\
        (forall f, In f done -> readable files f) /\ ~ readable files x /\
        run_seeds exec_sql own_commit fs w
        = (Raise (OSError (path_join SEEDS_DIR x)),
           mkWorld
             (mkDb (table (committed w))
                (fold_left (seed_unit exec_sql own_commit files) done
                   (data (committed w))))
             (Some (InBlock
                (mkDb (table (committed w))
                   (fold_left (seed_unit exec_sql own_commit files) done
                      (data (committed w))))))
             (stdout w
              ++ seed_reports exec_sql own_commit files (data (committed w)) done))).
Proof.
  intros Hs.
  destruct (first_unreadable files (seed_files_of files))
    as [Hr|(done & x & rest & E & Hd & Hx)].
  - left. split; [exact Hr|]. now apply run_seeds_readable.
  - right. exists done, x, rest. repeat split; try assumption.
    now apply (@run_seeds_unreadable _ _ exec_sql own_commit fs files w done x rest).
Qed.

Lemma run_seeds_keeps_table fs (w : World) r w' :
  run_seeds exec_sql own_commit fs w = (r, w') -> table (committed w') = table (committed w).
Proof.
  destruct (lookup fs SEEDS_NAME) as [[c|files]|] eqn:L.
  - unfold run_seeds. rewrite L. now intros [= <- <-].
  - destruct (@run_seeds_cases fs files w L) as [[_ ->]|(done & x & rest & _ & _ & _ & ->)].
    + destruct (seed_files_of files); now intros [= <- <-].
    + now intros [= <- <-].
  - unfold run_seeds. rewrite L. now intros [= <- <-].
Qed.

(** The ledger after a loop of [run_migration_up]: the former one and
    the migrations run before the loop ended. *)
Lemma up_loop_ledger fs l : forall (w : World) r w',
  for_each l (run_migration_up exec_sql own_commit fs) w = (r, w') ->
  exists done rest,
    l = done ++ rest /\ ledger w' = ledger w ++ done /\
    (r = Return tt -> rest = []) /\
    (forall e, r = Raise e -> rest <> []) /\
    ~ (exists v, In v done /\ In v (ledger w)) /\ NoDup done.
Proof.
  induction l as [|x l IH]; intros w r w'; simpl.
  - intros [= <- <-]. exists [], [].
    repeat split; try discriminate; try constructor.
    + now rewrite app_nil_r.
    + intros (v & [] & _).
  - unfold seq, bind.
    destruct (run_migration_up exec_sql own_commit fs x w) as [[[]|e] w1] eqn:R.
    + intros H.
      destruct (run_migration_up_cases _ _ _ _ _ R)
        as [(_ & c & rows & dat & _ & Ht & _ & Hn & Hw1)|(e & ? & _)];
        [|discriminate].
      assert (ledger w1 = rows ++ [x]) as L1 by (rewrite Hw1; reflexivity).
      destruct (IH _ _ _ H) as (done & rest & -> & Hl & Hr & He & Hd & Hnd).
      assert (ledger w = rows) as Hw by (unfold ledger, rows_of; now rewrite Ht).
      rewrite L1 in Hl, Hd.
      exists (x :: done), rest. rewrite Hl, Hw, <- app_assoc.
      repeat split; try assumption.
      * intros (v & [<-|Hv] & Hv'); [contradiction|].
        apply Hd. exists v. split; [exact Hv|]. apply in_or_app. now left.
      * constructor; [|exact Hnd]. intros Hx. apply Hd. exists x.
        split; [exact Hx|]. apply in_or_app. right. now left.
    + intros [= <- <-].
      destruct (run_migration_up_cases _ _ _ _ _ R)
        as [(? & _)|(e' & _ & Hc & _)]; [discriminate|].
      exists [], (x :: l). rewrite app_nil_r. unfold ledger, rows_of. rewrite Hc.
      repeat split; try discriminate; try constructor.
      intros (v & [] & _).
Qed.

Lemma migrate_up_ledger fs (w : World) r w' :
  migrate_up exec_sql own_commit fs w = (r, w') ->
  exists done rest,
    pending_in fs w = done ++ rest /\ ledger w' = ledger w ++ done /\
    (r = Return tt -> rest = []) /\
    (forall e, r = Raise e -> rest <> []) /\
    ~ (exists v, In v done /\ In v (ledger w)) /\ NoDup done.
Proof.
  rewrite migrate_up_eq. fold (pending_in fs w).
  destruct (pending_in fs w) as [|p ps] eqn:E.
  - intros [= <- <-]. exists [], [].
    repeat split; try discriminate; try constructor.
    + now rewrite app_nil_r.
    + intros (v & [] & _).
  - intros H. apply up_loop_ledger in H. exact H.
Qed.

Lemma down_loop_ledger fs l : forall (w : World) r w',
  for_each l (run_migration_down exec_sql own_commit fs) w = (r, w') ->
  exists gone,
    ledger w' = fold_left (fun rows f => delete_row f rows) gone (ledger w).
Proof.
  intros w r w' H. destruct (down_loop _ _ _ _ _ H) as (msgs & _ & _ & Hl).
  now exists (rolled_back msgs).
Qed.

Lemma delete_rows_NoDup gone : forall rows,
  NoDup rows -> NoDup (fold_left (fun rows f => delete_row f rows) gone rows).
Proof.
  induction gone as [|f gone IH]; intros rows H; simpl; [exact H|].
  apply IH. now apply NoDup_filter.
Qed.

Lemma migrate_down_ledger fs (w : World) r w' :
  migrate_down exec_sql own_commit fs w = (r, w') ->
  exists gone,
    ledger w' = fold_left (fun rows f => delete_row f rows) gone (ledger w).
Proof.
  rewrite migrate_down_eq.
  destruct (PyStr.last_opt _) as [last|].
  - intros H. destruct (run_migration_down_cases _ _ _ _ _ H)
      as [(_ & Hl & _)|[(_ & -> & _)|(e & _ & Hc & _)]].
    + now exists [last].
    + now exists [].
    + exists []. unfold ledger, rows_of. now rewrite Hc.
  - intros [= <- <-]. now exists [].
Qed.

Lemma migrate_reset_ledger fs (w : World) r w' :
  migrate_reset exec_sql own_commit fs w = (r, w') ->
  exists gone,
    ledger w' = fold_left (fun rows f => delete_row f rows) gone (ledger w).
Proof.
  rewrite migrate_reset_eq.
  destruct (PyStr.sorted (ledger w)) as [|a l].
  - intros [= <- <-]. now exists [].
  - intros H. apply down_loop_ledger in H. exact H.
Qed.

(** X4.  No command records an identifier twice: when the ledger holds
    no identifier twice before [main] runs, whatever the arguments and
    the files, it holds none twice afterwards. *)
Theorem ledger_stays_duplicate_free fs argv (w : World) :
  NoDup (ledger w) -> NoDup (ledger (snd (main exec_sql own_commit fs argv w))).
Proof.
  intros Hw.
  destruct (main_cases fs argv w)
    as [[-> _]|[(prog & c & rest & _ & _ & _ & _ & _ & ->)
               |(prog & c & rest & m & _ & Hm & ->)]];
    try exact Hw.
  assert (forall r w', m w = (r, w') -> NoDup (ledger w')) as Hkeep.
  { intros r w' H.
    destruct Hm as [[_ ->]|[[_ ->]|[[_ ->]|[_ ->]]]].
    - destruct (migrate_up_ledger _ _ H) as (done & rest' & _ & -> & _ & _ & Hd & Hnd).
      apply NoDup_app; try assumption.
      intros v Hv Hv'. apply Hd. now exists v.
    - destruct (migrate_down_ledger _ _ H) as (gone & ->).
      now apply delete_rows_NoDup.
    - destruct (migrate_reset_ledger _ _ H) as (gone & ->).
      now apply delete_rows_NoDup.
    - unfold ledger, rows_of. rewrite (run_seeds_keeps_table _ _ H). exact Hw. }
  destruct (m w) as [[[]|e] w'] eqn:E; simpl; now apply (Hkeep _ _ eq_refl).
Qed.

(** X5.  Each command moves the ledger one way only.  [migrate_up]
    appends identifiers that were pending, in their order, and removes
    none; when it returns it has appended all of them.  [migrate_down]
    and [migrate_reset] add none.  [run_seeds] leaves the tracking table
    as it is, present or absent. *)
Theorem commands_move_ledger_one_way fs (w : World) :
  (forall r w',
     migrate_up exec_sql own_commit fs w = (r, w') ->
     exists done rest,
       pending_in fs w = done ++ rest /\ ledger w' = ledger w ++ done /\
       (r = Return tt -> rest = [])) /\
  (forall r w',
     migrate_down exec_sql own_commit fs w = (r, w') -> incl (ledger w') (ledger w)) /\
  (forall r w',
     migrate_reset exec_sql own_commit fs w = (r, w') -> incl (ledger w') (ledger w)) /\
  (forall r w',
     run_seeds exec_sql own_commit fs w = (r, w') ->
     table (committed w') = table (committed w)).
Proof.
  split; [|split; [|split]].
  - intros r w' H.
    destruct (migrate_up_ledger _ _ H) as (done & rest & E & Hl & Hr & _).
    now exists done, rest.
  - intros r w' H v. destruct (migrate_down_ledger _ _ H) as (gone & ->).
    rewrite (delete_rows_In exec_sql own_commit). tauto.
  - intros r w' H v. destruct (migrate_reset_ledger _ _ H) as (gone & ->).
    rewrite (delete_rows_In exec_sql own_commit). tauto.
  - intros r w' H. now apply run_seeds_keeps_table with fs r.
Qed.

(** *** The connection *)

Lemma run_migration_up_closes fs x (w : World) r w' :
  run_migration_up exec_sql own_commit fs x w = (r, w') -> session w = None -> session w' = None.
Proof.
  intros H Hs.
  destruct (run_migration_up_cases _ _ _ _ _ H)
    as [(_ & c & rows & dat & _ & _ & _ & _ & ->)|(e & _ & _ & [->|[d' ->]])];
    trivial.
Qed.

Lemma run_migration_down_closes fs x (w : World) r w' :
  run_migration_down exec_sql own_commit fs x w = (r, w') ->
  session w = None -> session w' = None.
Proof.
  rewrite run_migration_down_eq. intros H Hs.
  destruct (lookup fs x) as [[c|files]|].
  - destruct (down_sql_of c) as [sql|].
    + destruct (down_unit _ _ _ _ _) as [d'|[e d']]; injection H as <- <-; reflexivity.
    + injection H as <- <-. exact Hs.
  - injection H as <- <-. exact Hs.
  - injection H as <- <-. exact Hs.
Qed.

(** X6.  [up], [down] and [reset] close the connections they open on
    every way out, and so does [seed] when it returns.  The one way to
    leave a connection open is a [.sql] entry of the seed directory that
    cannot be read: [open] raises inside the loop of [run_seeds], whose
    [close] calls are not under a [finally].  So, when no connection is
    open before [main] runs, one is open afterwards exactly in that
    case, and it is then at the start of a transaction. *)
Theorem main_leaves_no_connection_open fs argv (w : World) :
  session w = None ->
  (session (snd (main exec_sql own_commit fs argv w)) = None
   \/ session (snd (main exec_sql own_commit fs argv w))
      = Some (InBlock (committed (snd (main exec_sql own_commit fs argv w))))) /\
  (session (snd (main exec_sql own_commit fs argv w)) = None
   <-> ~ exists prog rest files f,
           argv = prog :: "seed" :: rest /\
           lookup fs SEEDS_NAME = Some (Dir files) /\
           In f (seed_files_of files) /\ ~ readable files f).
Proof.
  intros Hw.
  destruct (main_cases fs argv w)
    as [[E L]|[(prog & c & rest & -> & _ & _ & _ & Hs & E)
              |(prog & c & rest & m & -> & Hm & E)]].
  - rewrite E. simpl. split; [now left|]. split; [|intros _; exact Hw].
    intros _ (p & r & fl & f & -> & _). simpl in L. lia.
  - rewrite E. simpl. split; [now left|]. split; [|intros _; exact Hw].
    intros _ (p & r & fl & f & Ea & _). congruence.
  - rewrite E.
    assert (session (snd (match m w with
                          | (Return _, w') => (0, w')
                          | (Raise e, w') =>
                              (1, mkWorld (committed w') (session w')
                                    (stdout w' ++ [MsgMigrationFailed e]))
                          end)) = session (snd (m w)) /\
            committed (snd (match m w with
                            | (Return _, w') => (0, w')
                            | (Raise e, w') =>
                                (1, mkWorld (committed w') (session w')
                                      (stdout w' ++ [MsgMigrationFailed e]))
                            end)) = committed (snd (m w))) as [-> ->]
      by (destruct (m w) as [[[]|e] w']; split; reflexivity).
    assert (c <> "seed" -> session (snd (m w)) = None ->
            (session (snd (m w)) = None
             \/ session (snd (m w)) = Some (InBlock (committed (snd (m w))))) /\
            (session (snd (m w)) = None
             <-> ~ exists p r files f,
                     prog :: c :: rest = p :: "seed" :: r /\
                     lookup fs SEEDS_NAME = Some (Dir files) /\
                     In f (seed_files_of files) /\ ~ readable files f)) as Hother.
    { intros Hc Hn. split; [now left|]. split; [|intros _; exact Hn].
      intros _ (p & r & fl & f & Ea & _). congruence. }
    destruct Hm as [[-> ->]|[[-> ->]|[[-> ->]|[-> ->]]]].
    + apply Hother; [discriminate|].
      destruct (migrate_up exec_sql own_commit fs w) as [r w'] eqn:H. simpl.
      rewrite migrate_up_eq in H.
      destruct (pending_of _ _) as [|p ps]; [now injection H as <- <-|].
      apply for_each_invariant
        with (P := fun w0 : World => session w0 = None) (2 := H);
        [|reflexivity].
      intros x w0 r0 w0' _. apply run_migration_up_closes.
    + apply Hother; [discriminate|].
      destruct (migrate_down exec_sql own_commit fs w) as [r w'] eqn:H. simpl.
      rewrite migrate_down_eq in H.
      destruct (PyStr.last_opt _) as [last|]; [|now injection H as <- <-].
      now apply run_migration_down_closes in H.
    + apply Hother; [discriminate|].
      destruct (migrate_reset exec_sql own_commit fs w) as [r w'] eqn:H. simpl.
      rewrite migrate_reset_eq in H.
      destruct (PyStr.sorted (ledger w)) as [|a l]; [now injection H as <- <-|].
      apply for_each_invariant
        with (P := fun w0 : World => session w0 = None) (2 := H);
        [|reflexivity].
      intros x w0 r0 w0' _. apply run_migration_down_closes.
    + destruct (lookup fs SEEDS_NAME) as [[c0|files]|] eqn:Ls.
      * unfold run_seeds. rewrite Ls. simpl. split; [now left|].
        split; [|intros _; exact Hw].
        intros _ (p & r & fl & f & _ & Ea & _). discriminate.
      * destruct (@run_seeds_cases fs files w Ls)
          as [[Hr ->]|(done & x & rest' & Ef & Hd & Hx & ->)]; simpl.
        -- assert (session
                     match seed_files_of files with
                     | [] => mkWorld (committed w) (session w)
                               (stdout w ++ [MsgNoSeedFiles])
                     | _ :: _ =>
                         mkWorld
                           (mkDb (table (committed w))
                              (fold_left (seed_unit exec_sql own_commit files)
                                 (seed_files_of files) (data (committed w))))
                           None
                           (stdout w
                            ++ seed_reports exec_sql own_commit files
                                 (data (committed w)) (seed_files_of files))
                     end = None) as Hn
             by (destruct (seed_files_of files); [exact Hw | reflexivity]).
           split; [now left|]. split; [|intros _; exact Hn].
           intros _ (p & r & fl & f & _ & [= <-] & Hin & Hf). now apply Hf, Hr.
        -- split; [now right|]. split; [discriminate|].
           intros Hne. exfalso. apply Hne. exists prog, rest, files, x.
           repeat split; [|exact Hx]. rewrite Ef. apply in_or_app. right. now left.
      * unfold run_seeds. rewrite Ls. simpl. split; [now left|].
        split; [|intros _; exact Hw].
        intros _ (p & r & fl & f & _ & Ea & _). discriminate.
Qed.

(** ** One migration *)

Lemma insert_row_spec version t rows' :
  insert_row (SqlError := SqlError) version t = inl rows'
  <-> exists rows,
        t = Some rows /\ String.length version <= 255 /\ ~ In version rows
        /\ rows' = rows ++ [version].
Proof.
  unfold insert_row. split.
  - destruct t as [rows|]; [|discriminate].
    destruct (255 <? String.length version)%nat eqn:L; [discriminate|].
    destruct (PyStr.mem version rows) eqn:E; [discriminate|].
    intros [= <-]. exists rows. apply Nat.ltb_ge in L.
    apply PyStrFacts.mem_false in E. now repeat split.
  - intros (rows & -> & L & Hn & ->).
    apply Nat.ltb_ge in L. rewrite L.
    apply PyStrFacts.mem_false in Hn. now rewrite Hn.
Qed.

Lemma delete_row_app_last version rows :
  ~ In version rows -> delete_row version (rows ++ [version]) = rows.
Proof.
  intros Hn. unfold delete_row. rewrite filter_app. simpl.
  rewrite String.eqb_refl. simpl. rewrite app_nil_r.
  apply forallb_filter_id, forallb_forall. intros v Hv.
  apply negb_true_iff, String.eqb_neq. intros ->. contradiction.
Qed.

(** X7.  For a name that fits the column of the tracking table (at
    most 255 characters, as the names of a directory are),
    [run_migration_up] returns exactly when the file is a readable file
    of the migration directory, the database accepts its up section, the
    tracking table exists and the name is not recorded yet. *)
Theorem up_succeeds_exactly_when fs filename (w : World) :
  String.length filename <= 255 ->
  ((exists w', run_migration_up exec_sql own_commit fs filename w = (Return tt, w'))
   <-> exists content rows dat,
         lookup fs filename = Some (File content) /\
         exec_sql (up_sql_of content) (data (committed w)) = inl dat /\
         table (committed w) = Some rows /\
         ~ In filename rows).
Proof.
  intros L. rewrite run_migration_up_eq. split.
  - intros (w' & H).
    destruct (lookup fs filename) as [[content|files]|]; try discriminate.
    unfold up_unit in H.
    destruct (exec_sql (up_sql_of content) (data (committed w))) as [dat|e] eqn:E;
      [|discriminate].
    destruct (insert_row filename (table (committed w))) as [rows'|e] eqn:I;
      [|discriminate].
    apply insert_row_spec in I. destruct I as (rows & Ht & _ & Hn & _).
    now exists content, rows, dat.
  - intros (content & rows & dat & -> & E & Ht & Hn).
    unfold up_unit. rewrite E.
    assert (insert_row (SqlError := SqlError) filename (table (committed w))
            = inl (rows ++ [filename])) as ->.
    { apply insert_row_spec. now exists rows. }
    now eexists.
Qed.

(** X8.  The unique constraint of the tracking table guards against a
    second record, not against a second execution: for a migration whose
    name is recorded already, [run_migration_up] raises after the up
    section was accepted and leaves the tracking table as it was.  The
    effect of the script is rolled back with the rest when the script
    holds no COMMIT of its own; a script that commits by itself has
    taken effect a second time. *)
Theorem recorded_migration_is_not_applied_again
    fs filename content rows dat (w : World) :
  lookup fs filename = Some (File content) ->
  exec_sql (up_sql_of content) (data (committed w)) = inl dat ->
  table (committed w) = Some rows ->
  String.length filename <= 255 ->
  In filename rows ->
  exists d',
    run_migration_up exec_sql own_commit fs filename w
    = (Raise (DatabaseError (UniqueViolation filename)),
       mkWorld d' None
         (stdout w
          ++ [MsgErrorApplying filename (DatabaseError (UniqueViolation filename))])) /\
    table d' = Some rows /\
    (own_commit (up_sql_of content) (data (committed w)) = None ->
     d' = committed w) /\
    (forall dc,
       own_commit (up_sql_of content) (data (committed w)) = Some dc ->
       data d' = dat).
Proof.
  intros Hl E Ht L Hin.
  rewrite run_migration_up_eq, Hl. unfold up_unit, insert_row. rewrite E, Ht.
  apply Nat.ltb_ge in L. rewrite L.
  apply PyStrFacts.mem_In in Hin. rewrite Hin.
  eexists. split; [reflexivity|].
  destruct (own_commit (up_sql_of content) (data (committed w))) as [dc|]; simpl.
  - split; [reflexivity|]. split; [discriminate | reflexivity].
  - split; [exact Ht|]. split; [reflexivity | discriminate].
Qed.

(** X9.  Down is a unit as up is: [run_migration_down] either commits
    the effect of the down section together with the removal of the
    ledger entry and reports the rollback, or reports no rollback and
    leaves the tracking table as it was; the rest of the committed
    database is as it was too, unless the down section holds a COMMIT of
    its own. *)
Theorem down_unit_is_atomic fs filename (w : World) r w' :
  run_migration_down exec_sql own_commit fs filename w = (r, w') ->
  (r = Return tt /\
   exists content down_sql rows dat,
     lookup fs filename = Some (File content) /\
     down_sql_of content = Some down_sql /\
     table (committed w) = Some rows /\
     exec_sql down_sql (data (committed w)) = inl dat /\
     committed w' = mkDb (Some (delete_row filename rows)) dat /\
     stdout w' = stdout w ++ [MsgRolledBack filename])
  \/ (table (committed w') = table (committed w) /\
      rolled_back (stdout w') = rolled_back (stdout w) /\
      ((forall content down_sql,
          lookup fs filename = Some (File content) ->
          down_sql_of content = Some down_sql ->
          own_commit down_sql (data (committed w)) = None) ->
       committed w' = committed w)).
Proof.
  assert (forall (o : list (message SqlError)) m,
            rolled_back [m] = [] -> rolled_back (o ++ [m]) = rolled_back o) as Hrb.
  { intros o m Hm. induction o as [|m0 o IH]; simpl; [exact Hm|].
    destruct m0; simpl; now rewrite ?IH. }
  rewrite run_migration_down_eq.
  destruct (lookup fs filename) as [[content|files]|] eqn:Hl.
  - destruct (down_sql_of content) as [down_sql|] eqn:Ed.
    + destruct (down_unit _ _ _ _ _) as [d'|[e d']] eqn:U; intros [= <- <-].
      * left. split; [reflexivity|].
        destruct (down_unit_inl _ _ _ _ _ U) as (rows & dat & Ht & He & ->).
        now exists content, down_sql, rows, dat.
      * right. simpl. destruct (down_unit_inr _ _ _ _ _ U) as [Ht Hd].
        split; [exact Ht|]. split; [now apply Hrb|].
        intros Hc. apply Hd. now apply Hc with content.
    + intros [= <- <-]. right. simpl.
      split; [reflexivity|]. split; [now apply Hrb | reflexivity].
  - intros [= <- <-]. now right.
  - intros [= <- <-]. now right.
Qed.

(** X10.  Applying a migration and rolling it back at once leaves the
    ledger exactly as it was before the two: same identifiers, same
    order. *)
Theorem up_then_down_restores_ledger fs filename (w w1 w2 : World) :
  run_migration_up exec_sql own_commit fs filename w = (Return tt, w1) ->
  run_migration_down exec_sql own_commit fs filename w1 = (Return tt, w2) ->
  stdout w2 = stdout w1 ++ [MsgRolledBack filename] ->
  table (committed w2) = table (committed w).
Proof.
  intros Hu Hd Ho.
  destruct (run_migration_up_cases _ _ _ _ _ Hu)
    as [(_ & c & rows & dat & Hl & Ht & _ & Hn & ->)|(e & ? & _)];
    [|discriminate].
  rewrite run_migration_down_eq, Hl in Hd.
  destruct (down_sql_of c) as [down_sql|].
  - destruct (down_unit _ _ _ _ _) as [d'|[e d']] eqn:U; [|discriminate].
    injection Hd as <-.
    destruct (down_unit_inl _ _ _ _ _ U) as (rows' & dat' & [= <-] & _ & ->).
    simpl. rewrite Ht. f_equal. now apply delete_row_app_last.
  - injection Hd as <-. simpl in Ho. apply app_inv_head in Ho. discriminate.
Qed.

(** ** Edge cases of the commands *)

(** X11.  [seed] without work to do.  Without a seed directory, or with
    one that holds no [.sql] file, the command prints one line, opens no
    connection and exits with status 0.  When [seeds] is a file and not a
    directory, listing it fails and the process exits with status 1.  In
    the three cases the database is left as it was. *)
Theorem seed_without_seed_files fs (w : World) prog rest :
  (lookup fs SEEDS_NAME = None ->
   main exec_sql own_commit fs (prog :: "seed" :: rest) w
   = (0, mkWorld (committed w) (session w) (stdout w ++ [MsgSeedsDirNotFound]))) /\
  (forall files,
     lookup fs SEEDS_NAME = Some (Dir files) ->
     (forall f, In f (listdir files) -> PyStr.endswith f ".sql" = false) ->
     main exec_sql own_commit fs (prog :: "seed" :: rest) w
     = (0, mkWorld (committed w) (session w) (stdout w ++ [MsgNoSeedFiles]))) /\
  (forall c,
     lookup fs SEEDS_NAME = Some (File c) ->
     main exec_sql own_commit fs (prog :: "seed" :: rest) w
     = (1, mkWorld (committed w) (session w)
             (stdout w ++ [MsgMigrationFailed (OSError SEEDS_DIR)]))).
Proof.
  unfold main. simpl. unfold run_seeds. split; [|split].
  - now intros ->.
  - intros files -> Hnone.
    destruct (filter _ (listdir files)) as [|f l] eqn:E; [reflexivity|].
    assert (In f (filter (fun f => PyStr.endswith f ".sql") (listdir files)))
      as Hf by (rewrite E; now left).
    apply filter_In in Hf. destruct Hf as [Hin Ht].
    rewrite (Hnone f Hin) in Ht. discriminate.
  - now intros c ->.
Qed.

(** X12.  With nothing recorded, [down] and [reset] print that there is
    nothing to roll back and return; no file is read.  The only change
    is that the tracking table exists afterwards. *)
Theorem rollback_with_empty_ledger fs (w : World) :
  ledger w = [] ->
  migrate_down exec_sql own_commit fs w
  = (Return tt, mkWorld (mkDb (Some []) (data (committed w))) None
                  (stdout w ++ [MsgNoRollback])) /\
  migrate_reset exec_sql own_commit fs w
  = (Return tt, mkWorld (mkDb (Some []) (data (committed w))) None
                  (stdout w ++ [MsgNoRollback])).
Proof.
  intros H. rewrite migrate_down_eq, migrate_reset_eq, H. simpl.
  unfold print, ensured, ensure_table. simpl. unfold ledger in H. now rewrite H.
Qed.

(** X13.  The exit status is 0 or 1, and it is 0 exactly when the
    second argument names one of the four commands and that command
    returned.  With no command or an unknown one, [main] leaves the
    database and the connection state as they were, and the last line
    it prints is [None], not the usage: the usage text of the script
    follows the imports, so the module has no docstring and
    [print(__doc__)] prints the value [None]. *)
Theorem exit_status_reports_the_command fs argv (w : World) :
  (fst (main exec_sql own_commit fs argv w) = 0 \/ fst (main exec_sql own_commit fs argv w) = 1) /\
  (fst (main exec_sql own_commit fs argv w) = 0
   <-> exists prog command rest m w',
         argv = prog :: command :: rest /\
         ((command = "up" /\ m = migrate_up exec_sql own_commit fs)
          \/ (command = "down" /\ m = migrate_down exec_sql own_commit fs)
          \/ (command = "reset" /\ m = migrate_reset exec_sql own_commit fs)
          \/ (command = "seed" /\ m = run_seeds exec_sql own_commit fs)) /\
         m w = (Return tt, w')) /\
  ((List.length argv < 2
    \/ exists prog command rest,
         argv = prog :: command :: rest /\ command <> "up" /\ command <> "down"
         /\ command <> "reset" /\ command <> "seed") ->
   fst (main exec_sql own_commit fs argv w) = 1 /\
   committed (snd (main exec_sql own_commit fs argv w)) = committed w /\
   session (snd (main exec_sql own_commit fs argv w)) = session w /\
   exists msgs,
     stdout (snd (main exec_sql own_commit fs argv w)) = stdout w ++ msgs ++ [MsgDoc None]).
Proof.
  destruct (main_cases fs argv w)
    as [[E L]|[(prog & c & rest & -> & Hu & Hd & Hr & Hs & E)
              |(prog & c & rest & m & -> & Hm & E)]].
  - rewrite E. split; [now right|]. split.
    + split; [discriminate|]. intros (p & c & r & m & w' & -> & _). simpl in L. lia.
    + intros _. repeat split. now exists [].
  - rewrite E. split; [now right|]. split.
    + split; [discriminate|].
      intros (p & c' & r & m & w' & [= _ <- _] & Hm & _).
      destruct Hm as [[-> _]|[[-> _]|[[-> _]|[-> _]]]]; congruence.
    + intros _. repeat split. now exists [MsgUnknownCommand c].
  - rewrite E. destruct (m w) as [[[]|e] w'] eqn:R; simpl.
    + split; [now left|]. split.
      * split; [|reflexivity]. intros _. now exists prog, c, rest, m, w'.
      * intros [L|(p & c' & r & [= _ <- _] & Hu & Hd & Hr & Hs)];
          [simpl in L; lia|].
        destruct Hm as [[-> _]|[[-> _]|[[-> _]|[-> _]]]]; congruence.
    + split; [now right|]. split.
      * split; [discriminate|].
        intros (p & c' & r & m' & w2 & [= _ <- _] & Hm' & R').
        assert (m' = m) as ->.
        { destruct Hm as [[-> ->]|[[-> ->]|[[-> ->]|[-> ->]]]];
            destruct Hm' as [[? ->]|[[? ->]|[[? ->]|[? ->]]]];
            try reflexivity; discriminate. }
        congruence.
      * intros [L|(p & c' & r & [= _ <- _] & Hu & Hd & Hr & Hs)];
          [simpl in L; lia|].
        destruct Hm as [[-> _]|[[-> _]|[[-> _]|[-> _]]]]; congruence.
Qed.

(** X14.  A ledger whose greatest identifier has no readable file in the
    migration directory blocks both rollbacks: [down] and [reset] raise
    on opening that file, before any SQL is executed, so [reset] rolls
    back none of the older migrations either. *)
Theorem missing_file_blocks_rollback fs (w : World) last :
  PyStr.last_opt (PyStr.sorted (ledger w)) = Some last ->
  (forall content, lookup fs last <> Some (File content)) ->
  migrate_down exec_sql own_commit fs w
  = (Raise (OSError (path_join MIGRATIONS_DIR last)), ensured w) /\
  migrate_reset exec_sql own_commit fs w
  = (Raise (OSError (path_join MIGRATIONS_DIR last)), ensured w) /\
  forall prog rest,
    fst (main exec_sql own_commit fs (prog :: "reset" :: rest) w) = 1 /\
    ledger (snd (main exec_sql own_commit fs (prog :: "reset" :: rest) w)) = ledger w.
Proof.
  intros Hlast Hno.
  assert (forall w0 : World,
            run_migration_down exec_sql own_commit fs last w0
            = (Raise (OSError (path_join MIGRATIONS_DIR last)), w0)) as Hrun.
  { intros w0. rewrite run_migration_down_eq.
    destruct (lookup fs last) as [[c|files]|] eqn:E; try reflexivity.
    now destruct (Hno c). }
  assert (migrate_reset exec_sql own_commit fs w
          = (Raise (OSError (path_join MIGRATIONS_DIR last)), ensured w)) as Hreset.
  { rewrite migrate_reset_eq. unfold PyStr.last_opt in Hlast.
    destruct (PyStr.sorted (ledger w)) as [|a l] eqn:E; [discriminate|].
    destruct (rev (a :: l)) as [|x r]; [discriminate|].
    injection Hlast as ->. simpl. unfold seq, bind. now rewrite Hrun. }
  split; [now rewrite migrate_down_eq, Hlast|]. split; [exact Hreset|].
  intros prog rest. unfold main. simpl. rewrite Hreset. now split.
Qed.

(** X15.  [migrate_reset] returns also when it met migrations without a
    down section: every identifier left in the ledger is one it reported
    as having none, and the exit status is still 0. *)
Theorem reset_leaves_only_irreversible fs (w w' : World) :
  migrate_reset exec_sql own_commit fs w = (Return tt, w') ->
  (exists msgs,
     stdout w' = stdout w ++ msgs /\
     forall v, In v (ledger w') -> In v (ledger w) /\ In v (no_down_found msgs)) /\
  forall prog rest, main exec_sql own_commit fs (prog :: "reset" :: rest) w = (0, w').
Proof.
  intros H. split; [|intros prog rest; unfold main; simpl; now rewrite H].
  rewrite migrate_reset_eq in H.
  assert (forall l (w0 w1 : World),
    for_each l (run_migration_down exec_sql own_commit fs) w0 = (Return tt, w1) ->
    exists msgs,
      stdout w1 = stdout w0 ++ msgs /\
      (forall v, In v l -> In v (rolled_back msgs) \/ In v (no_down_found msgs)) /\
      ledger w1
      = fold_left (fun rows f => delete_row f rows) (rolled_back msgs) (ledger w0))
    as Hloop.
  { induction l as [|x l IH]; intros w0 w1; simpl.
    - intros [= <-]. exists []. rewrite app_nil_r. repeat split. intros v [].
    - unfold seq, bind.
      destruct (run_migration_down exec_sql own_commit fs x w0) as [[[]|e] w2] eqn:R;
        [|discriminate].
      intros Hl. destruct (IH _ _ Hl) as (msgs & Ho & Hv & Hled).
      destruct (run_migration_down_cases _ _ _ _ _ R)
        as [(_ & Hl1 & Ho1 & _)|[(_ & -> & _)|(e & ? & _)]]; [| |discriminate].
      + exists (MsgRolledBack x :: msgs). rewrite Ho, Ho1, <- app_assoc. simpl.
        repeat split; [|now rewrite <- Hl1].
        intros v [<-|Hin]; [left; now left|].
        destruct (Hv v Hin); [left; now right | now right].
      + exists (MsgNoDownFound x :: msgs). rewrite Ho. simpl. rewrite <- app_assoc.
        repeat split; [|exact Hled].
        intros v [<-|Hin]; [right; now left|].
        destruct (Hv v Hin); [now left | right; now right]. }
  destruct (PyStr.sorted (ledger w)) as [|a l] eqn:E.
  - injection H as <-. exists [MsgNoRollback]. split; [reflexivity|].
    apply (proj1 (PyStrFacts.sorted_nil_iff _)) in E.
    intros v Hv. change (In v (ledger w)) in Hv. rewrite E in Hv. destruct Hv.
  - destruct (Hloop _ _ _ H) as (msgs & Ho & Hv & Hled).
    exists msgs. split; [exact Ho|]. intros v Hin.
    rewrite Hled in Hin. apply (delete_rows_In exec_sql own_commit) in Hin.
    destruct Hin as [Hin Hnot]. change (ledger (ensured w)) with (ledger w) in Hin.
    split; [exact Hin|].
    destruct (Hv v) as [Hr|Hn]; [|contradiction|exact Hn].
    apply -> in_rev. rewrite <- E. now apply PyStrFacts.sorted_In.
Qed.

(** *** Starting again after a failure *)

Lemma mem_ext x l l' :
  (In x l <-> In x l') -> PyStr.mem x l = PyStr.mem x l'.
Proof.
  intros H. destruct (PyStr.mem x l') eqn:E.
  - apply PyStrFacts.mem_In. apply H. now apply PyStrFacts.mem_In.
  - apply PyStrFacts.mem_false. intros Hx. apply H in Hx.
    apply PyStrFacts.mem_In in Hx. congruence.
Qed.

Lemma pending_of_more migrations applied done :
  pending_of migrations (PyStr.sorted (applied ++ done))
  = filter (fun m => negb (PyStr.mem m done))
      (pending_of migrations (PyStr.sorted applied)).
Proof.
  unfold pending_of. induction migrations as [|m l IH]; simpl; [reflexivity|].
  destruct (PyStr.mem m (PyStr.sorted applied)) eqn:Ea; simpl.
  - assert (PyStr.mem m (PyStr.sorted (applied ++ done)) = true) as ->.
    { apply PyStrFacts.mem_In, PyStrFacts.sorted_In, in_or_app. left.
      now apply PyStrFacts.sorted_In, PyStrFacts.mem_In. }
    exact IH.
  - assert (PyStr.mem m (PyStr.sorted (applied ++ done)) = PyStr.mem m done) as ->.
    { apply mem_ext. rewrite PyStrFacts.sorted_In, in_app_iff.
      apply PyStrFacts.mem_false in Ea. rewrite PyStrFacts.sorted_In in Ea.
      split; [intros [H|H]; [contradiction | exact H] | now right]. }
    destruct (PyStr.mem m done); simpl; now rewrite IH.
Qed.

Lemma filter_out_prefix (l1 l2 : list string) :
  NoDup (l1 ++ l2) -> filter (fun m => negb (PyStr.mem m l1)) (l1 ++ l2) = l2.
Proof.
  intros Hnd. rewrite filter_app.
  assert (filter (fun m => negb (PyStr.mem m l1)) l1 = []) as ->.
  { destruct (filter _ l1) as [|v l] eqn:E; [reflexivity|].
    assert (In v (filter (fun m => negb (PyStr.mem m l1)) l1)) as Hv
      by (rewrite E; now left).
    apply filter_In in Hv. destruct Hv as [Hin Hneg].
    apply PyStrFacts.mem_In in Hin. rewrite Hin in Hneg. discriminate. }
  simpl. apply forallb_filter_id, forallb_forall. intros v Hv.
  apply negb_true_iff, PyStrFacts.mem_false. intros Hv1.
  clear - Hnd Hv Hv1. induction l1 as [|a l1 IH]; [destruct Hv1|].
  simpl in Hnd. apply NoDup_cons_iff in Hnd. destruct Hnd as [Ha Hnd].
  destruct Hv1 as [->|Hv1]; [|now apply IH].
  apply Ha, in_or_app. now right.
Qed.

Lemma get_migration_files_NoDup fs :
  NoDup (listdir fs) -> NoDup (get_migration_files fs).
Proof.
  intros H. unfold get_migration_files.
  now apply SortedFacts.sorted_NoDup, NoDup_filter.
Qed.

(** X16.  A failed [up] can be run again where it stopped.  With the
    names of the directory distinct, as in a directory they are, the
    pending list of the next run is the migration that failed followed
    by the ones that were not reached; those applied before the failure
    are not run again. *)
Theorem failed_up_resumes_at_the_failure fs (w : World) e w' :
  NoDup (listdir fs) ->
  migrate_up exec_sql own_commit fs w = (Raise e, w') ->
  exists done x rest,
    pending_in fs w = done ++ x :: rest /\
    ledger w' = ledger w ++ done /\
    pending_in fs w' = x :: rest.
Proof.
  intros Hnd H.
  destruct (migrate_up_ledger _ _ H) as (done & rest0 & E & Hl & _ & Hr & _).
  destruct rest0 as [|x rest]; [now destruct (Hr e eq_refl)|].
  exists done, x, rest. split; [exact E|]. split; [exact Hl|].
  unfold pending_in in *. rewrite Hl, pending_of_more, E.
  apply filter_out_prefix. rewrite <- E.
  unfold pending_of. now apply NoDup_filter, get_migration_files_NoDup.
Qed.

(** ** The parser *)

(** X17.  Splitting at the delimiter loses no text: the parts of a file
    joined by the delimiter are the file, there is at least one part,
    and no part holds the delimiter. *)
Theorem split_parts_rebuild_the_file content :
  String.concat DOWN_MARKER (PyStr.split content DOWN_MARKER) = content /\
  PyStr.split content DOWN_MARKER <> [] /\
  Forall (fun part => PyStr.find_first DOWN_MARKER part = None)
    (PyStr.split content DOWN_MARKER).
Proof.
  unfold PyStr.split. split; [|split].
  - apply ParserFacts.split_fuel_concat; [discriminate | lia].
  - apply ParserFacts.split_fuel_not_nil.
  - apply ParserFacts.split_fuel_parts_free; [discriminate | lia].
Qed.

(** X18.  A file with neither marker is an up-only migration: its whole
    text, trimmed, is the up section, and it has no down section. *)
Theorem file_without_markers_is_up_only content :
  PyStr.find_first DOWN_MARKER content = None ->
  PyStr.find_first UP_MARKER content = None ->
  up_sql_of content = PyStr.strip content /\ down_sql_of content = None.
Proof.
  intros Hd Hu. unfold up_sql_of, down_sql_of.
  rewrite (PyStrFacts.split_eq content marker_not_empty), Hd. simpl.
  now rewrite ParserFacts.replace_absent by exact Hu.
Qed.

(** X19.  The statements sent to the database are trimmed: trimming
    them again changes nothing.  The up section is empty exactly when
    the text before the delimiter, the up marker removed, is made of
    whitespace only. *)
Theorem sections_are_trimmed content :
  PyStr.strip (up_sql_of content) = up_sql_of content /\
  (forall down_sql,
     down_sql_of content = Some down_sql -> PyStr.strip down_sql = down_sql) /\
  (up_sql_of content = EmptyString
   <-> all_space (PyStr.replace (until_marker content) UP_MARKER EmptyString)
       = true).
Proof.
  split; [|split].
  - unfold up_sql_of. apply ParserFacts.strip_idempotent.
  - intros down_sql. rewrite down_sql_of_eq.
    destruct (PyStr.find_first DOWN_MARKER content) as [[b a]|]; [|discriminate].
    intros [= <-]. apply ParserFacts.strip_idempotent.
  - rewrite up_sql_of_eq. apply ParserFacts.strip_empty_iff.
Qed.

(** ** Seeds are not tracked *)

(** X20.  Nothing records that a seed file was run: when every [.sql]
    entry of the seed directory can be read, a second [seed] runs every
    seed file again, in the same order, on the data the first one
    left. *)
Theorem seeds_are_run_again fs files (w : World) :
  lookup fs SEEDS_NAME = Some (Dir files) ->
  (forall f, In f (seed_files_of files) -> readable files f) ->
  exists w1 w2 msgs1 msgs2,
    run_seeds exec_sql own_commit fs w = (Return tt, w1) /\
    run_seeds exec_sql own_commit fs w1 = (Return tt, w2) /\
    stdout w1 = stdout w ++ msgs1 /\
    stdout w2 = stdout w1 ++ msgs2 /\
    seed_targets msgs1 = seed_files_of files /\
    seed_targets msgs2 = seed_files_of files /\
    data (committed w2)
    = fold_left (seed_unit exec_sql own_commit files) (seed_files_of files)
        (fold_left (seed_unit exec_sql own_commit files) (seed_files_of files)
           (data (committed w))).
Proof.
  intros Hs Hr.
  assert (forall w0 : World, exists w' msgs,
            run_seeds exec_sql own_commit fs w0 = (Return tt, w') /\
            stdout w' = stdout w0 ++ msgs /\
            seed_targets msgs = seed_files_of files /\
            data (committed w')
            = fold_left (seed_unit exec_sql own_commit files) (seed_files_of files)
                (data (committed w0)))
    as Hrun.
  { intros w0.
    rewrite (@run_seeds_readable _ _ exec_sql own_commit fs files w0 Hs Hr).
    destruct (seed_files_of files) as [|s0 l0] eqn:E.
    - exists (snd (print MsgNoSeedFiles w0)), [MsgNoSeedFiles]. now repeat split.
    - eexists. eexists. split; [reflexivity|]. simpl. split; [reflexivity|].
      split; [|reflexivity].
      exact (@seed_targets_reports _ _ exec_sql own_commit files (s0 :: l0) _ Hr). }
  destruct (Hrun w) as (w1 & msgs1 & H1 & Ho1 & Ht1 & Hd1).
  destruct (Hrun w1) as (w2 & msgs2 & H2 & Ho2 & Ht2 & Hd2).
  exists w1, w2, msgs1, msgs2. rewrite Hd2, Hd1. now repeat split.
Qed.

End Coverage.

(** ** The further properties on concrete inputs *)

Lemma ledger_stays_duplicate_free_witness :
  NoDup (ledger (demo_world (Some ["001_a.sql"]))) /\
  NoDup (ledger (snd (main demo_exec no_commit demo_fs ["migrate.py"; "up"]
                        (demo_world (Some ["001_a.sql"]))))).
Proof.
  assert (NoDup (ledger (demo_world (Some ["001_a.sql"])))) as H
    by (repeat constructor; intros []).
  split; [exact H|].
  exact (@ledger_stays_duplicate_free _ _ demo_exec no_commit demo_fs
           ["migrate.py"; "up"] _ H).
Defined.

Lemma main_leaves_no_connection_open_witness :
  session (demo_world None) = None /\
  session (snd (main demo_exec no_commit demo_fs_bad ["migrate.py"; "up"]
                  (demo_world None)))
  = None /\
  session (snd (main demo_exec no_commit demo_fs_seed_dir ["migrate.py"; "seed"]
                  (demo_world None)))
  = Some (InBlock (mkDb None ["insert 1;"])).
Proof.
  split; [reflexivity|]. split.
  - apply (proj2 (proj2 (@main_leaves_no_connection_open _ _ demo_exec no_commit
                           demo_fs_bad ["migrate.py"; "up"] (demo_world None)
                           eq_refl))).
    intros (p & r & fl & f & Ea & _). discriminate Ea.
  - destruct (proj1 (@main_leaves_no_connection_open _ _ demo_exec no_commit
                       demo_fs_seed_dir ["migrate.py"; "seed"] (demo_world None)
                       eq_refl)) as [H|H].
    + vm_compute in H. discriminate H.
    + exact H.
Defined.

Lemma recorded_migration_is_not_applied_again_witness :
  String.length "001_a.sql" <= 255 /\
  In "001_a.sql" ["001_a.sql"] /\
  run_migration_up demo_exec no_commit demo_fs_abc "001_a.sql"
    (demo_world (Some ["001_a.sql"]))
  = (Raise (DatabaseError (UniqueViolation "001_a.sql")),
     mkWorld (mkDb (Some ["001_a.sql"]) []) None
       [MsgErrorApplying "001_a.sql" (DatabaseError (UniqueViolation "001_a.sql"))]).
Proof.
  assert (String.length "001_a.sql" <= 255) as L
    by (vm_compute; repeat constructor).
  assert (In "001_a.sql" ["001_a.sql"]) as Hin by now left.
  split; [exact L|]. split; [exact Hin|].
  destruct (@recorded_migration_is_not_applied_again _ _ demo_exec no_commit
              demo_fs_abc "001_a.sql" (script "create a;" "drop a;")
              ["001_a.sql"] ["create a;"] (demo_world (Some ["001_a.sql"]))
              eq_refl eq_refl eq_refl L Hin)
    as (d' & Hrun & _ & Hnone & _).
  rewrite (Hnone eq_refl) in Hrun. exact Hrun.
Defined.

Lemma down_unit_is_atomic_witness :
  exists r w',
    run_migration_down demo_exec no_commit demo_fs_abc "002_b.sql"
      (demo_world (Some ["001_a.sql"; "002_b.sql"])) = (r, w') /\
    r = Return tt /\
    committed w' = mkDb (Some ["001_a.sql"]) ["drop b;"].
Proof.
  set (w := demo_world (Some ["001_a.sql"; "002_b.sql"])).
  set (res := run_migration_down demo_exec no_commit demo_fs_abc "002_b.sql" w).
  assert (res = (fst res, snd res)) as H by (vm_compute; reflexivity).
  exists (fst res), (snd res). split; [exact H|].
  destruct (@down_unit_is_atomic _ _ demo_exec no_commit demo_fs_abc "002_b.sql" w _ _ H)
    as [(Hr & _)|(Hc & _)].
  - split; [exact Hr | reflexivity].
  - vm_compute in Hc. discriminate Hc.
Defined.

Lemma up_then_down_restores_ledger_witness :
  exists w1 w2,
    run_migration_up demo_exec no_commit demo_fs_abc "002_b.sql"
      (demo_world (Some ["001_a.sql"])) = (Return tt, w1) /\
    run_migration_down demo_exec no_commit demo_fs_abc "002_b.sql" w1 = (Return tt, w2) /\
    table (committed w2) = Some ["001_a.sql"].
Proof.
  set (w := demo_world (Some ["001_a.sql"])).
  set (w1 := snd (run_migration_up demo_exec no_commit demo_fs_abc "002_b.sql" w)).
  set (w2 := snd (run_migration_down demo_exec no_commit demo_fs_abc "002_b.sql" w1)).
  assert (run_migration_up demo_exec no_commit demo_fs_abc "002_b.sql" w = (Return tt, w1))
    as Hu by (vm_compute; reflexivity).
  assert (run_migration_down demo_exec no_commit demo_fs_abc "002_b.sql" w1 = (Return tt, w2))
    as Hd by (vm_compute; reflexivity).
  exists w1, w2. split; [exact Hu|]. split; [exact Hd|].
  exact (@up_then_down_restores_ledger _ _ demo_exec no_commit demo_fs_abc "002_b.sql"
           w w1 w2 Hu Hd eq_refl).
Defined.

Lemma rollback_with_empty_ledger_witness :
  migrate_down demo_exec no_commit demo_fs (demo_world None)
  = (Return tt, mkWorld (mkDb (Some []) []) None [MsgNoRollback]) /\
  migrate_reset demo_exec no_commit demo_fs (demo_world None)
  = (Return tt, mkWorld (mkDb (Some []) []) None [MsgNoRollback]).
Proof.
  exact (@rollback_with_empty_ledger _ _ demo_exec no_commit demo_fs (demo_world None)
           eq_refl).
Defined.

Lemma missing_file_blocks_rollback_witness :
  migrate_reset demo_exec no_commit demo_fs (demo_world (Some ["001_a.sql"; "zzz.sql"]))
  = (Raise (OSError "migrations/zzz.sql"),
     ensured (demo_world (Some ["001_a.sql"; "zzz.sql"]))).
Proof.
  assert (forall content, lookup demo_fs "zzz.sql" <> Some (File content)) as Hno
    by (intros content; discriminate).
  exact (proj1 (proj2 (@missing_file_blocks_rollback _ _ demo_exec no_commit demo_fs
                         (demo_world (Some ["001_a.sql"; "zzz.sql"])) "zzz.sql"
                         eq_refl Hno))).
Defined.

Lemma reset_leaves_only_irreversible_witness :
  exists w' msgs,
    migrate_reset demo_exec no_commit demo_fs
      (demo_world (Some ["001_a.sql"; "002_b.sql"; "003_c.sql"]))
    = (Return tt, w') /\
    stdout w' = msgs /\
    ledger w' = ["003_c.sql"] /\
    forall v, In v (ledger w') -> In v (no_down_found msgs).
Proof.
  set (w := demo_world (Some ["001_a.sql"; "002_b.sql"; "003_c.sql"])).
  set (w' := snd (migrate_reset demo_exec no_commit demo_fs w)).
  assert (migrate_reset demo_exec no_commit demo_fs w = (Return tt, w')) as H
    by (vm_compute; reflexivity).
  destruct (proj1 (@reset_leaves_only_irreversible _ _ demo_exec no_commit demo_fs w w' H))
    as (msgs & Ho & Hv).
  exists w', msgs. split; [exact H|]. split; [exact Ho|].
  split; [reflexivity|]. intros v Hin. now apply Hv.
Defined.

Lemma failed_up_resumes_at_the_failure_witness :
  exists e w',
    migrate_up demo_exec no_commit demo_fs_bad (demo_world None) = (Raise e, w') /\
    pending_in demo_fs_bad (demo_world None)
    = ["001_a.sql"; "002_bad.sql"; "003_c.sql"] /\
    pending_in demo_fs_bad w' = ["002_bad.sql"; "003_c.sql"] /\
    exists done x rest,
      pending_in demo_fs_bad (demo_world None) = done ++ x :: rest /\
      pending_in demo_fs_bad w' = x :: rest.
Proof.
  set (w := demo_world None).
  set (w' := snd (migrate_up demo_exec no_commit demo_fs_bad w)).
  set (e := DatabaseError (SqlFailed "syntax error") : exn string).
  assert (NoDup (listdir demo_fs_bad)) as Hnd.
  { repeat constructor; simpl; intuition discriminate. }
  assert (migrate_up demo_exec no_commit demo_fs_bad w = (Raise e, w')) as H
    by (vm_compute; reflexivity).
  destruct (@failed_up_resumes_at_the_failure _ _ demo_exec no_commit demo_fs_bad w e w'
              Hnd H) as (done & x & rest & E1 & _ & E2).
  exists e, w'. split; [exact H|]. split; [reflexivity|]. split; [reflexivity|].
  now exists done, x, rest.
Defined.

Lemma file_without_markers_is_up_only_witness :
  up_sql_of ("create c;" ++ nl) = "create c;" /\
  down_sql_of ("create c;" ++ nl) = None.
Proof.
  exact (@file_without_markers_is_up_only ("create c;" ++ nl)%string
           eq_refl eq_refl).
Defined.

Lemma seeds_are_run_again_witness :
  lookup demo_fs SEEDS_NAME = Some (Dir demo_seeds) /\
  (forall f, In f (seed_files_of demo_seeds) -> readable demo_seeds f) /\
  exists w1 w2,
    run_seeds demo_exec no_commit demo_fs (demo_world None) = (Return tt, w1) /\
    run_seeds demo_exec no_commit demo_fs w1 = (Return tt, w2) /\
    data (committed w2) = ["insert 1;"; "insert 3;"; "insert 1;"; "insert 3;"].
Proof.
  split; [reflexivity|]. split; [exact demo_seeds_readable|].
  destruct (@seeds_are_run_again _ _ demo_exec no_commit demo_fs demo_seeds
              (demo_world None) eq_refl demo_seeds_readable)
    as (w1 & w2 & msgs1 & msgs2 & H1 & H2 & _ & _ & _ & _ & Hd).
  exists w1, w2. split; [exact H1|]. split; [exact H2 | exact Hd].
Defined.

Lemma up_succeeds_exactly_when_witness :
  String.length "002_b.sql" <= 255 /\
  exists w',
    run_migration_up demo_exec no_commit demo_fs_abc "002_b.sql"
      (demo_world (Some ["001_a.sql"])) = (Return tt, w').
Proof.
  assert (String.length "002_b.sql" <= 255) as L
    by (vm_compute; repeat constructor).
  split; [exact L|].
  apply (proj2 (@up_succeeds_exactly_when _ _ demo_exec no_commit demo_fs_abc "002_b.sql"
                  (demo_world (Some ["001_a.sql"])) L)).
  exists (script "create b;" "drop b;"), ["001_a.sql"], ["create b;"].
  split; [reflexivity|]. split; [reflexivity|]. split; [reflexivity|].
  intros [H|[]]. discriminate H.
Defined.
